(** * RAP-1 ferry (raw -> derived): a model of [ferry-to-derived.py]

    The ferry script reads the raw [cafes] table, validates it, standardizes
    and enriches every row, splits the result into Square One / competitor
    tables and writes six tables to the derived SQLite file.

    Conventions of the model.
    - A nullable column entry is an [option]: [None] is SQL NULL / pandas NaN.
    - A finite float64 is taken as the rational it denotes ([Q]); the script
      only compares these columns against constants, and comparisons of
      doubles agree with comparisons of the rationals they denote.  The one
      arithmetic column the properties below speak about, [quality_score], is
      a real number ([R]): rounding of the product and of the logarithm is
      not modelled.
    - Entries are typed as the raw schema declares them (TEXT, REAL,
      INTEGER).  The dtype of a column is the one [read_sql_query] infers
      from the rows it fetched: a numeric column in which no row has a value
      comes back as a column of [None] objects, and [pd.cut] and [np.log]
      raise on it.
    - Text is modelled on ASCII: the string methods are Python's on text
      whose code points are all below 128, one per character.  Outside ASCII
      Python goes by the Unicode character database, which is not modelled;
      the properties of the standardized text columns are stated for ASCII
      text.
    - The columns [popularity_percentile], [distance_from_downtown] and
      [location_zone] are left out of the enriched row: they are float
      arithmetic; they are modelled apart, as functions of the standardized
      row, over the rationals and the reals. *)

From Stdlib Require Import ZArith QArith Reals List String Ascii Bool Lia Lqa Permutation.
From Stdlib Require Import Qreals.
From Stdlib Require Lra.
Import ListNotations.

Local Open Scope string_scope.
Local Open Scope list_scope.

(** ** pandas / numpy primitives used by the script *)

Module Pd.

Definition isna {A : Type} (x : option A) : bool :=
  match x with None => true | Some _ => false end.

Definition notna {A : Type} (x : option A) : bool := negb (isna x).

(** [series < c] and [series > c] on a float column: NaN compares false. *)
Definition Qlt_bool (x y : Q) : bool := negb (Qle_bool y x).

Definition lt (x : option Q) (c : Q) : bool :=
  match x with Some v => Qlt_bool v c | None => false end.

Definition gt (x : option Q) (c : Q) : bool :=
  match x with Some v => Qlt_bool c v | None => false end.

(** [series < 0] on the integer column [review_count]. *)
Definition ltz (x : option Z) (c : Z) : bool :=
  match x with Some v => (v <? c)%Z | None => false end.

(** [mask.sum()]: number of true entries. *)
Definition sum (mask : list bool) : Z :=
  fold_right (fun b acc => (Z.b2z b + acc)%Z) 0%Z mask.

(** [mask.any()]. *)
Definition any (mask : list bool) : bool := existsb (fun b => b) mask.

(** [series.duplicated()], keep='first': an entry is marked when an equal
    entry occurs before it. *)
Definition eqb_id (a b : option Z) : bool :=
  match a, b with
  | Some x, Some y => (x =? y)%Z
  | None, None => true
  | _, _ => false
  end.

Fixpoint duplicated_from (seen : list (option Z)) (s : list (option Z)) : list bool :=
  match s with
  | [] => []
  | x :: t => existsb (eqb_id x) seen :: duplicated_from (x :: seen) t
  end.

Definition duplicated (s : list (option Z)) : list bool := duplicated_from [] s.

(** Bin edges of [pd.cut]: a finite number or [float('inf')]. *)
Inductive edge : Type :=
| Fin (q : Q)
| Inf.

(** [e < x] for a finite [x]. *)
Definition edge_lt (e : edge) (x : Q) : bool :=
  match e with Fin q => Qlt_bool q x | Inf => false end.

(** [bins.searchsorted(x, side='left')] on increasing [bins]: the index of
    the first edge that is not below [x]. *)
Fixpoint searchsorted_left (bins : list edge) (x : Q) : nat :=
  match bins with
  | [] => O
  | e :: rest => if edge_lt e x then S (searchsorted_left rest x) else O
  end.

(** [pd.cut(x, bins, labels)] with the defaults [right=True],
    [include_lowest=False]: bin [i] is [(bins[i], bins[i+1]]]; a NaN and a
    value outside every bin give NaN. *)
Definition cut (bins : list edge) (labels : list string) (x : option Q) : option string :=
  match x with
  | None => None
  | Some v =>
      let ids := searchsorted_left bins v in
      if (ids =? 0)%nat || (ids =? List.length bins)%nat then None
      else nth_error labels (ids - 1)
  end.

(** *** Column types *)

(** The dtype [read_sql_query] gives a numeric column: float64 or int64 when
    a fetched row has a value in it (its NULLs are NaN then), object when no
    fetched row has one (its entries are [None]). *)
Definition object_dtype {A : Type} (column : list (option A)) : bool :=
  forallb isna column.

(** [pd.cut(column, bins)] searches the bins with the entries of the column
    and [np.log(column + 1)] calls into them: on an object column the first
    entry is a [TypeError].  A column without rows has no entry to meet. *)
Definition raises_type_error {A : Type} (column : list (option A)) : bool :=
  match column with
  | [] => false
  | _ :: _ => object_dtype column
  end.

(** *** String methods, on ASCII text

    [str.strip], [str.lower] and [str.title] as Python has them on text
    whose code points are all below 128: whitespace is 9-13 and 28-32, the
    cased characters are the letters A-Z and a-z. *)

Definition is_upper (c : ascii) : bool :=
  let n := nat_of_ascii c in (65 <=? n)%nat && (n <=? 90)%nat.

Definition is_lower (c : ascii) : bool :=
  let n := nat_of_ascii c in (97 <=? n)%nat && (n <=? 122)%nat.

Definition lower_char (c : ascii) : ascii :=
  if is_upper c then ascii_of_nat (nat_of_ascii c + 32) else c.

Definition upper_char (c : ascii) : ascii :=
  if is_lower c then ascii_of_nat (nat_of_ascii c - 32) else c.

Definition is_space (c : ascii) : bool :=
  let n := nat_of_ascii c in
  ((9 <=? n)%nat && (n <=? 13)%nat) || ((28 <=? n)%nat && (n <=? 32)%nat).

(** [str.lower()]. *)
Fixpoint lower (s : string) : string :=
  match s with
  | EmptyString => EmptyString
  | String c t => String (lower_char c) (lower t)
  end.

Fixpoint lstrip (s : string) : string :=
  match s with
  | EmptyString => EmptyString
  | String c t => if is_space c then lstrip t else s
  end.

Definition reverse (s : string) : string :=
  string_of_list_ascii (List.rev (list_ascii_of_string s)).

(** [str.strip()]. *)
Definition strip (s : string) : string := reverse (lstrip (reverse (lstrip s))).

(** [str.title()]: a letter that follows a letter is lowered, any other
    letter is raised. *)
Fixpoint title_from (previous_is_cased : bool) (s : string) : string :=
  match s with
  | EmptyString => EmptyString
  | String c t =>
      let cased := is_upper c || is_lower c in
      String (if cased then (if previous_is_cased then lower_char c else upper_char c) else c)
             (title_from cased t)
  end.

Definition title (s : string) : string := title_from false s.

(** [pat] occurs in [s] at its start, letters compared without case. *)
Fixpoint match_here (pat s : string) : bool :=
  match pat, s with
  | EmptyString, _ => true
  | String _ _, EmptyString => false
  | String p pat', String c s' =>
      Ascii.eqb (lower_char p) (lower_char c) && match_here pat' s'
  end.

Fixpoint search (pat s : string) : bool :=
  match_here pat s ||
  match s with
  | EmptyString => false
  | String _ s' => search pat s'
  end.

(** [series.str.contains(pat, case=False, na=False)] for a pattern without
    regular-expression metacharacters: a case-insensitive substring search,
    false on a null. *)
Definition str_contains_nocase (pat : string) (x : option string) : bool :=
  match x with Some s => search pat s | None => false end.

(** *** Frames as they are handed to [to_sql] *)

Inductive cell : Type :=
| Null
| Int (z : Z)
| Float (q : Q)
| Real (x : R)
| Text (s : string)
| Boolean (b : bool).

(** A row keyed by column name, and a frame as its list of rows. *)
Definition record : Type := list (string * cell).
Definition frame : Type := list record.

Definition of_option {A : Type} (f : A -> cell) (x : option A) : cell :=
  match x with Some v => f v | None => Null end.

Fixpoint get (column : string) (r : record) : option cell :=
  match r with
  | [] => None
  | (k, v) :: rest => if String.eqb k column then Some v else get column rest
  end.

(** [frame.drop(columns=[column])], row by row. *)
Definition drop_column (column : string) (r : record) : record :=
  filter (fun kv => negb (String.eqb (fst kv) column)) r.

Definition drop (column : string) (f : frame) : frame := map (drop_column column) f.

End Pd.

(** ** Configuration constants of the script *)

(** The bounds are the doubles the literals 53.40, 53.70, -113.70 and
    -113.30 denote, written out as fractions over a power of two. *)
Definition EDMONTON_lat_min : Q := 7515381878174515 # 140737488355328.
Definition EDMONTON_lat_max : Q := 3778801562340557 # 70368744177664.
Definition EDMONTON_lng_min : Q := (-8000926213000397) # 70368744177664.
Definition EDMONTON_lng_max : Q := (-7972778715329331) # 70368744177664.

(** 2.00 and 10.00, as 1.0, 5.0, 3.50, 5.00 and 6.50 below, are doubles. *)

Definition PRICE_RANGE_min : Q := 2.
Definition PRICE_RANGE_max : Q := 10.

Definition INPUT_DB : string := "./data-private/raw/edmonton_cafes.sqlite".
Definition OUTPUT_DB : string := "./data-private/derived/rap-1-competition-intel.sqlite".

(** ** Rows *)

(** One row of the raw [cafes] table.  The columns the script reads are
    typed; the remaining ones (address, phone, ...) travel in [other]. *)
Record raw_row : Type := mk_raw_row {
  cafe_id : option Z;
  name : option string;
  neighborhood : option string;
  cafe_type : option string;
  ownership : option string;
  latitude : option Q;
  longitude : option Q;
  avg_beverage_price : option Q;
  google_rating : option Q;
  review_count : option Z;
  other : Pd.record
}.

(** One row of [ds] after section 4 of the script: the standardized columns
    in [row], then the derived columns and the quality flags. *)
Record enriched_row : Type := mk_enriched_row {
  row : raw_row;
  is_soc : bool;
  price_category : option string;
  quality_score : option R;
  flag_missing_location : bool;
  flag_no_rating : bool;
  flag_no_price : bool;
  flag_location_out_of_bounds : bool;
  flag_suspicious_price : bool;
  quality_flag_count : Z;
  quality_tier : option string
}.

(** ** Section 3 of the script: validation masks, row by row *)

Definition required_fields : list string :=
  ["cafe_id"; "name"; "neighborhood"; "cafe_type"].

(** [ds_raw[required_fields].isna().any(axis=1)] *)
Definition missing_required (r : raw_row) : bool :=
  Pd.isna (cafe_id r) || Pd.isna (name r) || Pd.isna (neighborhood r) || Pd.isna (cafe_type r).

Definition has_coords (r : raw_row) : bool :=
  Pd.notna (latitude r) && Pd.notna (longitude r).

Definition out_of_bounds (r : raw_row) : bool :=
  Pd.lt (latitude r) EDMONTON_lat_min || Pd.gt (latitude r) EDMONTON_lat_max ||
  Pd.lt (longitude r) EDMONTON_lng_min || Pd.gt (longitude r) EDMONTON_lng_max.

Definition location_warnings (r : raw_row) : bool := has_coords r && out_of_bounds r.

Definition has_price (r : raw_row) : bool := Pd.notna (avg_beverage_price r).

Definition price_suspicious (r : raw_row) : bool :=
  Pd.lt (avg_beverage_price r) PRICE_RANGE_min || Pd.gt (avg_beverage_price r) PRICE_RANGE_max.

Definition price_warnings (r : raw_row) : bool := has_price r && price_suspicious r.

Definition has_rating (r : raw_row) : bool := Pd.notna (google_rating r).

Definition invalid_rating (r : raw_row) : bool :=
  Pd.lt (google_rating r) 1 || Pd.gt (google_rating r) 5.

Definition rating_warnings (r : raw_row) : bool := has_rating r && invalid_rating r.

(** The counter [validation_warnings] once section 3 is through: each of the
    three checks adds its [mask.sum()] (adding it only when [mask.any()]
    holds gives the same total). *)
Definition validation_warnings (ds_raw : list raw_row) : Z :=
  let w0 := 0%Z in
  let w1 := if Pd.any (map location_warnings ds_raw)
            then (w0 + Pd.sum (map location_warnings ds_raw))%Z else w0 in
  let w2 := if Pd.any (map price_warnings ds_raw)
            then (w1 + Pd.sum (map price_warnings ds_raw))%Z else w1 in
  let w3 := if Pd.any (map rating_warnings ds_raw)
            then (w2 + Pd.sum (map rating_warnings ds_raw))%Z else w2 in
  w3.

(** The counter [validation_errors]: set to 0 and never assigned again. *)
Definition validation_errors : Z := 0%Z.

(** ** Section 4 of the script: standardization and enrichment *)

(** The working copy [ds] of a raw row after the standardization block.
    [invalid_rating] is the mask computed on [ds_raw]. *)
Definition standardize (r : raw_row) : raw_row :=
  {| cafe_id := cafe_id r;
     name := name r;
     neighborhood := option_map (fun s => Pd.title (Pd.strip s)) (neighborhood r);
     cafe_type := option_map (fun s => Pd.lower (Pd.strip s)) (cafe_type r);
     ownership := option_map (fun s => Pd.lower (Pd.strip s)) (ownership r);
     latitude := latitude r;
     longitude := longitude r;
     avg_beverage_price := avg_beverage_price r;
     google_rating := if invalid_rating r then None else google_rating r;
     review_count := if Pd.ltz (review_count r) 0 then None else review_count r;
     other := other r |}.

Definition price_bins : list Pd.edge := [Pd.Fin 0; Pd.Fin (35 # 10); Pd.Fin 5; Pd.Fin (65 # 10); Pd.Inf].
Definition price_labels : list string := ["budget"; "moderate"; "premium"; "luxury"].

Definition tier_bins : list Pd.edge := [Pd.Fin (-1 # 1); Pd.Fin 0; Pd.Fin 1; Pd.Fin 2; Pd.Inf].
Definition tier_labels : list string := ["excellent"; "good"; "acceptable"; "poor"].

(** [np.log(x)] for an integer-valued [x]: the natural logarithm when
    [x > 0]; at [x <= 0] numpy gives -inf or NaN, which is no real number
    and is represented by [None]. *)
Definition np_log (x : Z) : option R :=
  if (0 <? x)%Z then Some (ln (IZR x)) else None.

(** [ds['google_rating'] * np.log(ds['review_count'] + 1)]: NaN in either
    operand gives NaN. *)
Definition score (rating : option Q) (reviews : option Z) : option R :=
  match rating, reviews with
  | Some g, Some n =>
      match np_log (n + 1) with
      | Some l => Some (Q2R g * l)%R
      | None => None
      end
  | _, _ => None
  end.

(** The enrichment and flagging blocks, for the raw row [r] (on which the
    validation masks were computed) and its standardized copy [d].
    [mask.fillna(False)] changes nothing: a comparison mask has no NaN. *)
Definition enrich (r d : raw_row) : enriched_row :=
  let f1 := Pd.isna (latitude d) || Pd.isna (longitude d) in
  let f2 := Pd.isna (google_rating d) in
  let f3 := Pd.isna (avg_beverage_price d) in
  let f4 := out_of_bounds r in
  let f5 := price_suspicious r in
  let count := Pd.sum [f1; f2; f3; f4; f5] in
  {| row := d;
     is_soc := Pd.str_contains_nocase "square one" (name d);
     price_category := Pd.cut price_bins price_labels (avg_beverage_price d);
     quality_score := score (google_rating d) (review_count d);
     flag_missing_location := f1;
     flag_no_rating := f2;
     flag_no_price := f3;
     flag_location_out_of_bounds := f4;
     flag_suspicious_price := f5;
     quality_flag_count := count;
     quality_tier := Pd.cut tier_bins tier_labels (Some (inject_Z count)) |}.

(** The whole of section 4 on one row, and on the table. *)
Definition transform_row (r : raw_row) : enriched_row := enrich r (standardize r).

Definition transform (ds_raw : list raw_row) : list enriched_row := map transform_row ds_raw.

(** ** Section 5 of the script: the tables *)

(** A row of [ds] as the frame row [to_sql] receives. *)
Definition to_record (e : enriched_row) : Pd.record :=
  let d := row e in
  [ ("cafe_id", Pd.of_option Pd.Int (cafe_id d));
    ("name", Pd.of_option Pd.Text (name d));
    ("neighborhood", Pd.of_option Pd.Text (neighborhood d));
    ("cafe_type", Pd.of_option Pd.Text (cafe_type d));
    ("ownership", Pd.of_option Pd.Text (ownership d));
    ("latitude", Pd.of_option Pd.Float (latitude d));
    ("longitude", Pd.of_option Pd.Float (longitude d));
    ("avg_beverage_price", Pd.of_option Pd.Float (avg_beverage_price d));
    ("google_rating", Pd.of_option Pd.Float (google_rating d));
    ("review_count", Pd.of_option Pd.Int (review_count d)) ]
  ++ other d ++
  [ ("is_soc", Pd.Boolean (is_soc e));
    ("price_category", Pd.of_option Pd.Text (price_category e));
    ("quality_score", Pd.of_option Pd.Real (quality_score e));
    ("flag_missing_location", Pd.Boolean (flag_missing_location e));
    ("flag_no_rating", Pd.Boolean (flag_no_rating e));
    ("flag_no_price", Pd.Boolean (flag_no_price e));
    ("flag_location_out_of_bounds", Pd.Boolean (flag_location_out_of_bounds e));
    ("flag_suspicious_price", Pd.Boolean (flag_suspicious_price e));
    ("quality_flag_count", Pd.Int (quality_flag_count e));
    ("quality_tier", Pd.of_option Pd.Text (quality_tier e)) ].

Definition cafes_complete (ds : list enriched_row) : Pd.frame := map to_record ds.

Definition soc_locations (ds : list enriched_row) : Pd.frame :=
  Pd.drop "is_soc" (map to_record (filter is_soc ds)).

Definition competitors (ds : list enriched_row) : Pd.frame :=
  Pd.drop "is_soc" (map to_record (filter (fun e => negb (is_soc e)) ds)).

(** ** The derived store and the script's effects on it *)

(** The SQLite file at [OUTPUT_DB]: its tables in creation order. *)
Definition database : Type := list (string * Pd.frame).

(** The file at [OUTPUT_DB]: absent, or a database. *)
Definition filesystem : Type := option database.

(** What a run acts on: the file at [OUTPUT_DB], and the tables the run has
    put there so far.  [written] is an observation of the run, kept to speak
    about what a run wrote; the script has no such variable. *)
Record world : Type := mk_world {
  store : filesystem;
  written : list (string * Pd.frame)
}.

Definition table_names (fs : filesystem) : list string :=
  match fs with Some db => map fst db | None => [] end.

Fixpoint lookup_table (table : string) (db : database) : option Pd.frame :=
  match db with
  | [] => None
  | (k, f) :: rest => if String.eqb k table then Some f else lookup_table table rest
  end.

Definition read_table (table : string) (fs : filesystem) : option Pd.frame :=
  match fs with Some db => lookup_table table db | None => None end.

(** A step of the script either goes on with a value or ends the process
    with an exit status. *)
Inductive result (A : Type) : Type :=
| Next (a : A)
| Exit (status : Z).

Arguments Next {A} a.
Arguments Exit {A} status.

Definition io (A : Type) : Type := world -> result A * world.

Definition ret {A : Type} (a : A) : io A := fun w => (Next a, w).

Definition bind {A B : Type} (m : io A) (k : A -> io B) : io B :=
  fun w =>
    match m w with
    | (Next a, w') => k a w'
    | (Exit status, w') => (Exit status, w')
    end.

Notation "m ;; k" := (bind m (fun _ => k)) (at level 61, right associativity).

(** [sys.exit(status)] *)
Definition sys_exit {A : Type} (status : Z) : io A := fun w => (Exit status, w).

(** An exception nobody catches: the interpreter prints the traceback and
    ends with status 1. *)
Definition raise {A : Type} : io A := sys_exit 1.

(** [if os.path.exists(OUTPUT_DB): os.remove(OUTPUT_DB)] *)
Definition remove_existing : io unit :=
  fun w => (Next tt, {| store := None; written := written w |}).

(** [sqlite3.connect(OUTPUT_DB)]: opens the file, an empty database when
    there is none. *)
Definition connect : io unit :=
  fun w =>
    (Next tt,
     {| store := match store w with Some db => Some db | None => Some [] end;
        written := written w |}).

(** How a [to_sql] call ends.  pandas creates the table in one transaction
    and inserts the rows in a second one: a call that fails does so before
    the table exists, or after it was created and with no row kept. *)
Inductive write_result : Type :=
| Written
| FailedOnCreate
| FailedOnInsert.

(** [frame.to_sql(table, conn, index=False)] with the default
    [if_exists='fail']: an existing table of that name is an error; then the
    table is created and filled as [how] tells, and a failure goes up as an
    exception. *)
Definition to_sql (how : write_result) (table : string) (f : Pd.frame) : io unit :=
  fun w =>
    match store w with
    | Some db =>
        match lookup_table table db with
        | Some _ => raise w
        | None =>
            match how with
            | Written =>
                (Next tt,
                 {| store := Some (db ++ [(table, f)]);
                    written := written w ++ [(table, f)] |})
            | FailedOnCreate => raise w
            | FailedOnInsert =>
                raise {| store := Some (db ++ [(table, [])]);
                         written := written w ++ [(table, [])] |}
            end
        end
    | None => raise w
    end.

(** [conn_derived.close()]: every [to_sql] has committed by then. *)
Definition close : io unit := ret tt.

(** Exit status of the process for a script that ran to [r]. *)
Definition exit_status (r : result unit) : Z :=
  match r with Next _ => 0%Z | Exit status => status end.

(** ** The script *)

(** What the script takes from its environment, and the two aggregate
    tables with the mean completeness.  The aggregates' row order comes from
    library sorts and their numbers from float division: they are kept as
    they come. *)
Record environment : Type := mk_environment {
  ferry_date : string;        (* datetime.now().isoformat() *)
  python_version : string;    (* sys.version.split()[0] *)
  pandas_version : string;    (* pd.__version__ *)
  completeness_metrics : list raw_row -> Pd.frame;
  avg_completeness : list raw_row -> Pd.cell;
  quality_distribution : list enriched_row -> Pd.frame
}.

Section Ferry.

Variable env : environment.

Definition metadata (ds_raw : list raw_row) (ds : list enriched_row) : Pd.frame :=
  [ [ ("ferry_date", Pd.Text (ferry_date env));
      ("python_version", Pd.Text (python_version env));
      ("pandas_version", Pd.Text (pandas_version env));
      ("input_file", Pd.Text INPUT_DB);
      ("input_records", Pd.Int (Z.of_nat (List.length ds_raw)));
      ("output_file", Pd.Text OUTPUT_DB);
      ("output_records", Pd.Int (Z.of_nat (List.length ds)));
      ("validation_errors", Pd.Int validation_errors);
      ("validation_warnings", Pd.Int (validation_warnings ds_raw));
      ("avg_completeness", avg_completeness env ds_raw) ] ].

(** Section 6: remove the old file, connect, write table after table.
    [writes k] tells how the [k]-th [to_sql] call ends. *)
Definition write_derived (writes : nat -> write_result) (ds_raw : list raw_row) : io unit :=
  let ds := transform ds_raw in
  remove_existing ;;
  connect ;;
  to_sql (writes 0%nat) "cafes_complete" (cafes_complete ds) ;;
  to_sql (writes 1%nat) "soc_locations" (soc_locations ds) ;;
  to_sql (writes 2%nat) "competitors" (competitors ds) ;;
  to_sql (writes 3%nat) "completeness_metrics" (completeness_metrics env ds_raw) ;;
  to_sql (writes 4%nat) "quality_distribution" (quality_distribution env ds) ;;
  to_sql (writes 5%nat) "metadata" (metadata ds_raw ds) ;;
  close.

(** The complete derived store a run is meant to leave. *)
Definition derived_tables (ds_raw : list raw_row) : database :=
  let ds := transform ds_raw in
  [ ("cafes_complete", cafes_complete ds);
    ("soc_locations", soc_locations ds);
    ("competitors", competitors ds);
    ("completeness_metrics", completeness_metrics env ds_raw);
    ("quality_distribution", quality_distribution env ds);
    ("metadata", metadata ds_raw ds) ].

(** The fatal checks of section 3. *)
Definition fatal_missing (ds_raw : list raw_row) : bool :=
  Pd.any (map missing_required ds_raw).

Definition fatal_duplicates (ds_raw : list raw_row) : bool :=
  Pd.any (Pd.duplicated (map cafe_id ds_raw)).

(** Section 4 on the whole table.  Row by row it is [transform]; two of its
    column operations, [pd.cut] on [avg_beverage_price] (line 187) and
    [np.log] on [review_count + 1] (line 197), raise a [TypeError] on a
    column of dtype object.  The comparisons, [rank], the masked
    multiplication and [calculate_distance] before and between them take
    such a column. *)
Definition enrichment_raises (ds_raw : list raw_row) : bool :=
  Pd.raises_type_error (map avg_beverage_price ds_raw) ||
  Pd.raises_type_error (map review_count ds_raw).

(** The script from the validation on: [ds_raw] is the table it loaded.
    Nothing catches the [TypeError] of section 4, and section 6 has not
    begun when it is raised. *)
Definition ferry (writes : nat -> write_result) (ds_raw : list raw_row) : io unit :=
  if fatal_missing ds_raw then sys_exit 1
  else if fatal_duplicates ds_raw then sys_exit 1
  else if enrichment_raises ds_raw then raise
  else write_derived writes ds_raw.

(** A run of the script on the raw table [ds_raw], with [fs] at
    [OUTPUT_DB] when it starts. *)
Definition run (writes : nat -> write_result) (ds_raw : list raw_row) (fs : filesystem)
  : result unit * world :=
  ferry writes ds_raw {| store := fs; written := [] |}.

End Ferry.

(** Every [to_sql] call succeeds. *)
Definition no_failure : nat -> write_result := fun _ => Written.

(** The [k]-th [to_sql] call ends as [how], the others succeed. *)
Definition fails_at (k : nat) (how : write_result) : nat -> write_result :=
  fun i => if (i =? k)%nat then how else Written.

(** What a [to_sql] call ending as [how] leaves of table number [k] of
    [tables] when it fails. *)
Definition leftover (tables : database) (k : nat) (how : write_result) : database :=
  match nth_error tables k with
  | Some (table, _) =>
      match how with
      | FailedOnInsert => [(table, [])]
      | _ => []
      end
  | None => []
  end.

(** Some row of the table has a value in the column [f]. *)
Definition has_value {A : Type} (f : raw_row -> option A) (ds_raw : list raw_row) : Prop :=
  exists r, In r ds_raw /\ f r <> None.

(** ** The fatal conditions and the table names, in the specification's words *)

Definition null_required_field (ds_raw : list raw_row) : Prop :=
  exists r, In r ds_raw /\
    (cafe_id r = None \/ name r = None \/ neighborhood r = None \/ cafe_type r = None).

Definition shared_cafe_id (ds_raw : list raw_row) : Prop :=
  exists (i j : nat) (r1 r2 : raw_row),
    i <> j /\ nth_error ds_raw i = Some r1 /\ nth_error ds_raw j = Some r2 /\
    cafe_id r1 = cafe_id r2.

Definition six_tables : list string :=
  ["cafes_complete"; "soc_locations"; "competitors"; "completeness_metrics";
   "quality_distribution"; "metadata"].

(** ** Sample data *)

(** Sample rows used to evaluate the script. *)
Definition sample_row (price rating : option Q) (reviews : option Z) : raw_row :=
  {| cafe_id := Some 1%Z;
     name := Some "Square One Coffee - Oliver";
     neighborhood := Some "oliver";
     cafe_type := Some "Specialty_Coffee";
     ownership := Some "independent";
     latitude := Some (5354 # 100);
     longitude := Some (-11349 # 100);
     avg_beverage_price := price;
     google_rating := rating;
     review_count := reviews;
     other := [] |}.

(** A raw row whose latitude is known and north of the box while its
    longitude is missing. *)
Definition row_latitude_only : raw_row :=
  {| cafe_id := Some 7%Z;
     name := Some "Brew Lab";
     neighborhood := Some "Garneau";
     cafe_type := Some "espresso_bar";
     ownership := None;
     latitude := Some 60;
     longitude := None;
     avg_beverage_price := Some 4;
     google_rating := Some 4;
     review_count := Some 25%Z;
     other := [] |}.

(** The environment of the sample runs. *)
Definition sample_env : environment :=
  {| ferry_date := "2025-12-12T09:00:00";
     python_version := "3.11.4";
     pandas_version := "2.1.0";
     completeness_metrics := fun _ => [];
     avg_completeness := fun _ => Pd.Null;
     quality_distribution := fun _ => [] |}.

Definition sample_table : list raw_row :=
  [ sample_row (Some (525 # 100)) (Some (46 # 10)) (Some 300%Z);
    {| cafe_id := Some 2%Z;
       name := Some "The Bean House";
       neighborhood := Some " garneau ";
       cafe_type := Some "Coffee_Shop";
       ownership := None;
       latitude := None;
       longitude := None;
       avg_beverage_price := Some (35 # 10);
       google_rating := Some 6;
       review_count := Some (-5)%Z;
       other := [] |} ].

(** The complete store a previous run left. *)
Definition prior_store : filesystem :=
  Some (derived_tables sample_env
          [sample_row (Some (4 # 1)) (Some (4 # 1)) (Some 10%Z)]).

(** A raw row that raises four quality flags: a latitude outside the box,
    no longitude, no rating and no price. *)
Definition row_four_flags : raw_row :=
  {| cafe_id := Some 9%Z;
     name := Some "Daily Studio";
     neighborhood := Some "Ritchie";
     cafe_type := Some "coffee_shop";
     ownership := None;
     latitude := Some 60;
     longitude := None;
     avg_beverage_price := None;
     google_rating := None;
     review_count := None;
     other := [] |}.

(** A table of one row that passes both fatal checks and has no price. *)
Definition table_without_price : list raw_row :=
  [sample_row None (Some (46 # 10)) (Some 300%Z)].

(** A table of two rows that passes both fatal checks and has no review
    count. *)
Definition table_without_reviews : list raw_row :=
  [ sample_row (Some (525 # 100)) (Some (46 # 10)) None;
    {| cafe_id := Some 2%Z;
       name := Some "The Bean House";
       neighborhood := Some "Garneau";
       cafe_type := Some "coffee_shop";
       ownership := None;
       latitude := None;
       longitude := None;
       avg_beverage_price := Some 4;
       google_rating := None;
       review_count := None;
       other := [] |} ].

(** A raw row with untidy ASCII text in the three columns the
    standardization rewrites. *)
Definition row_untidy_text : raw_row :=
  {| cafe_id := Some 3%Z;
     name := Some "Daily Grind";
     neighborhood := Some "  old STRATHCONA ";
     cafe_type := Some " Coffee_Shop";
     ownership := Some "Small_Chain  ";
     latitude := Some (5352 # 100);
     longitude := Some (-11350 # 100);
     avg_beverage_price := Some 4;
     google_rating := Some 4;
     review_count := Some 25%Z;
     other := [] |}.

(** ** Vocabulary of the text properties *)

(** [c] is an ASCII character, and [s] is ASCII text. *)
Definition ascii_char (c : ascii) : bool := (nat_of_ascii c <? 128)%nat.

Definition ascii_text (s : string) : Prop :=
  Forall (fun c => ascii_char c = true) (list_ascii_of_string s).

(** The entry of a text column is null or ASCII text. *)
Definition ascii_entry (x : option string) : Prop :=
  forall s, x = Some s -> ascii_text s.

(** The three columns the standardization rewrites hold ASCII text. *)
Definition ascii_row (r : raw_row) : Prop :=
  ascii_entry (neighborhood r) /\ ascii_entry (cafe_type r) /\ ascii_entry (ownership r).

(** For every character of [s], whether it is whitespace. *)
Definition spaces (s : string) : list bool :=
  map Pd.is_space (list_ascii_of_string s).

(** [s] neither begins nor ends with whitespace. *)
Definition trimmed (s : string) : Prop :=
  hd false (spaces s) = false /\ last (spaces s) false = false.

(** [s] has no capital letter. *)
Definition no_upper (s : string) : Prop :=
  Forall (fun c => Pd.is_upper c = false) (list_ascii_of_string s).

(** ** The reports' reading of [cafes_complete] *)

(** [cafes['name'].str.contains('Square One', case=False, na=False)], the
    column the rap-0 and rap-1 reports add to the rows they read back from
    [cafes_complete]. *)
Definition report_is_soc (t : Pd.record) : bool :=
  match Pd.get "name" t with
  | Some (Pd.Text s) => Pd.search "Square One" s
  | _ => false
  end.

(** rap-1: [.map({True: 'Square One Coffee', False: 'Competitors'})] *)
Definition business_type (t : Pd.record) : string :=
  if report_is_soc t then "Square One Coffee" else "Competitors".

(** ** The synthetic-data generator ([generate-synthetic-data.py]) *)

Module Generator.

Definition neighborhoods : list string :=
  ["Downtown"; "Oliver"; "Garneau"; "Whyte Avenue"; "Bonnie Doon";
   "Westmount"; "Old Strathcona"; "Ritchie"; "Highlands"; "Jasper Avenue";
   "Alberta Avenue"; "124 Street"; "Capilano"; "Belgravia"; "Riverdale"].

Definition prefixes : list string :=
  ["The"; "Cafe"; "Coffee"; "Brew"; "Bean"; "Roast"; "Morning"; "Daily"].
Definition middles : list string :=
  ["Central"; "House"; "Bar"; "Shop"; "Co"; "Collective"; "Studio"; "Lab"].
Definition suffixes : list string :=
  ["Cafe"; "Coffee"; "Roasters"; "Co."; "House"; "Bar"; "Kitchen"].

Definition soc_locations : list string :=
  ["Square One Coffee - Oliver";
   "Square One Coffee - Downtown";
   "Square One Coffee - Whyte Avenue";
   "Square One Coffee - Westmount";
   "Square One Coffee - 124 Street";
   "Square One Coffee - Ritchie"].

Definition cafe_types : list string :=
  ["specialty_coffee"; "espresso_bar"; "full_service_cafe"; "coffee_shop"; "roastery_cafe"].
Definition ownerships : list string :=
  ["independent"; "small_chain"; "regional_chain"; "national_chain"].

(** The bounds of the coordinate draws: the doubles 53.45, 53.62, -113.65
    and -113.40. *)
Definition lat_min : Q := 3761209376296141 # 70368744177664.
Definition lat_max : Q := 7546344125612687 # 140737488355328.
Definition lng_min : Q := (-3998703887895757) # 35184372088832.
Definition lng_max : Q := (-3989907794873549) # 35184372088832.

(** The doubles 4.3, 4.8 and 4.9 of the rating draws. *)
Definition rating_4_3 : Q := 4841369599423283 # 1125899906842624.
Definition rating_4_8 : Q := 5404319552844595 # 1125899906842624.
Definition rating_4_9 : Q := 2758454771764429 # 562949953421312.

(** [pat in s], the substring test of Python, letter case included. *)
Fixpoint contains (pat s : string) : bool :=
  String.prefix pat s ||
  match s with
  | EmptyString => false
  | String _ t => contains pat t
  end.

(** The random draws behind one competitor name. *)
Record name_draw : Type := mk_name_draw {
  short : bool;        (* random.random() < 0.3 *)
  prefix : string;     (* random.choice(prefixes) *)
  middle : string;     (* random.choice(middles) *)
  suffix : string      (* random.choice(suffixes) *)
}.

Definition competitor_name (d : name_draw) : string :=
  if short d then (prefix d ++ " " ++ middle d)%string
  else (prefix d ++ " " ++ middle d ++ " " ++ suffix d)%string.

(** What [random.choice] guarantees of a name draw. *)
Definition valid_name_draw (d : name_draw) : Prop :=
  In (prefix d) prefixes /\ In (middle d) middles /\ In (suffix d) suffixes.

Definition all_cafes (competitor_cafes : list string) : list string :=
  soc_locations ++ competitor_cafes.

(** The random draws behind one row, as far as the ferry reads the row; the
    other fourteen columns of the inserted tuple travel in [rest]. *)
Record row_draw : Type := mk_row_draw {
  cafe_type_draw : string;   (* random.choice(cafe_types) *)
  ownership_draw : string;   (* random.choice(ownerships) *)
  price_draw : Q;            (* round(random.uniform(lo, hi), 2) *)
  rating_draw : Q;           (* round(random.uniform(lo, hi), 1) *)
  reviews_draw : Z;          (* random.randint(lo, hi) *)
  latitude_draw : Q;         (* round(random.uniform(lat_min, lat_max), 6) *)
  longitude_draw : Q;        (* round(random.uniform(lng_min, lng_max), 6) *)
  rest : Pd.record
}.

(** What [random.uniform], [random.randint], [random.choice] and [round]
    guarantee of a row draw, in the branch [is_soc] selects. *)
Definition valid_row_draw (is_soc : bool) (d : row_draw) : Prop :=
  (if is_soc
   then (9 # 2 <= price_draw d /\ price_draw d <= 6) /\
        (rating_4_3 <= rating_draw d /\ rating_draw d <= rating_4_8) /\
        (150 <= reviews_draw d <= 500)%Z
   else In (cafe_type_draw d) cafe_types /\ In (ownership_draw d) ownerships /\
        (3 <= price_draw d /\ price_draw d <= 15 # 2) /\
        (7 # 2 <= rating_draw d /\ rating_draw d <= rating_4_9) /\
        (20 <= reviews_draw d <= 400)%Z) /\
  (lat_min <= latitude_draw d /\ latitude_draw d <= lat_max) /\
  (lng_min <= longitude_draw d /\ longitude_draw d <= lng_max).

(** The row inserted for the [i]-th cafe, with the [cafe_id] the
    AUTOINCREMENT key gives it. *)
Definition row (id : Z) (i : nat) (cafe_name : string) (d : row_draw) : raw_row :=
  let is_soc := contains "Square One" cafe_name in
  {| cafe_id := Some id;
     name := Some cafe_name;
     neighborhood := Some (nth (i mod List.length neighborhoods) neighborhoods "");
     cafe_type := Some (if is_soc then "specialty_coffee" else cafe_type_draw d);
     ownership := Some (if is_soc then "independent" else ownership_draw d);
     latitude := Some (latitude_draw d);
     longitude := Some (longitude_draw d);
     avg_beverage_price := Some (price_draw d);
     google_rating := Some (rating_draw d);
     review_count := Some (reviews_draw d);
     other := rest d |}.

(** [for i, cafe_name in enumerate(all_cafes)], one draw per cafe; the keys
    are handed out in insertion order. *)
Fixpoint rows_from (id : Z) (i : nat) (names : list string) (draws : list row_draw)
  : list raw_row :=
  match names, draws with
  | n :: names', d :: draws' => row id i n d :: rows_from (id + 1) (S i) names' draws'
  | _, _ => []
  end.

(** The [cafes] table of a run on a table whose largest key so far is
    [last_id] (0 on a fresh database). *)
Definition generate (last_id : Z) (name_draws : list name_draw) (row_draws : list row_draw)
  : list raw_row :=
  rows_from (last_id + 1) 0 (all_cafes (map competitor_name name_draws)) row_draws.

(** [s.replace(c, '')] for a one-character [c]. *)
Fixpoint remove_char (c : ascii) (s : string) : string :=
  match s with
  | EmptyString => EmptyString
  | String a t => if Ascii.eqb a c then remove_char c t else String a (remove_char c t)
  end.

(** [cafe_name.lower().replace(' ', '').replace('-', '')[:20]] *)
Definition handle (cafe_name : string) : string :=
  String.substring 0 20 (remove_char "-" (remove_char " " (Pd.lower cafe_name))).

(** The website and the Instagram handle, kept or dropped by a random draw. *)
Definition website (cafe_name : string) (keep : bool) : option string :=
  if keep then Some ("https://" ++ handle cafe_name ++ ".com")%string else None.

Definition instagram (cafe_name : string) (keep : bool) : option string :=
  if keep then Some ("@" ++ handle cafe_name)%string else None.

End Generator.

(** Draws for a sample generator run. *)
Definition sample_name_draw : Generator.name_draw :=
  {| Generator.short := false; Generator.prefix := "Brew";
     Generator.middle := "Lab"; Generator.suffix := "Roasters" |}.

Definition sample_row_draw : Generator.row_draw :=
  {| Generator.cafe_type_draw := "coffee_shop";
     Generator.ownership_draw := "small_chain";
     Generator.price_draw := 5;
     Generator.rating_draw := 9 # 2;
     Generator.reviews_draw := 200%Z;
     Generator.latitude_draw := 107 # 2;
     Generator.longitude_draw := (-227) # 2;
     Generator.rest := [] |}.

(** The rows of [t] whose neighborhood is [nb]. *)
Definition in_neighborhood (nb : string) (t : list raw_row) : list raw_row :=
  filter (fun r => match neighborhood r with
                   | Some s => String.eqb s nb
                   | None => false
                   end) t.

(** ** Columns of the enrichment block kept apart from [enriched_row]

    These columns are float arithmetic.  The distance is taken over the
    reals and the percentile over the rationals: rounding is not modelled. *)

(** The downtown reference point: the doubles 53.5444 and -113.4909. *)
Definition DOWNTOWN_lat : Q := 7535704371493025 # 140737488355328.
Definition DOWNTOWN_lng : Q := (-7986212108592847) # 70368744177664.

(** [calculate_distance(row)] *)
Definition calculate_distance (d : raw_row) : option R :=
  match latitude d, longitude d with
  | Some lat, Some lng =>
      let lat_diff := (Q2R lat - Q2R DOWNTOWN_lat)%R in
      let lng_diff := (Q2R lng - Q2R DOWNTOWN_lng)%R in
      Some (sqrt (lat_diff ^ 2 + lng_diff ^ 2) * 111)%R
  | _, _ => None
  end.

(** [pd.cut] as [Pd.cut], on a real number. *)
Definition edge_lt_real (e : Pd.edge) (x : R) : bool :=
  match e with
  | Pd.Fin q => if Rlt_dec (Q2R q) x then true else false
  | Pd.Inf => false
  end.

Fixpoint searchsorted_left_real (bins : list Pd.edge) (x : R) : nat :=
  match bins with
  | [] => O
  | e :: rest => if edge_lt_real e x then S (searchsorted_left_real rest x) else O
  end.

Definition cut_real (bins : list Pd.edge) (labels : list string) (x : option R)
  : option string :=
  match x with
  | None => None
  | Some v =>
      let ids := searchsorted_left_real bins v in
      if (ids =? 0)%nat || (ids =? List.length bins)%nat then None
      else nth_error labels (ids - 1)
  end.

Definition zone_bins : list Pd.edge := [Pd.Fin 0; Pd.Fin 2; Pd.Fin 5; Pd.Fin 10; Pd.Inf].
Definition zone_labels : list string := ["core"; "inner"; "outer"; "peripheral"].

(** [ds['location_zone']] of the row [d] of [ds]. *)
Definition location_zone (d : raw_row) : option string :=
  cut_real zone_bins zone_labels (calculate_distance d).

(** Number of non-null entries of a column that satisfy [p]. *)
Definition count_if (p : Z -> bool) (column : list (option Z)) : Z :=
  Z.of_nat (List.length (filter (fun x => match x with Some v => p v | None => false end)
                                column)).

(** [column.rank(pct=True)] at the entry [x] of [column] (defaults
    [method='average'], [na_option='keep']): the mean of the ranks the
    entries equal to [x] occupy, divided by the number of non-null entries;
    a null stays null. *)
Definition rank_pct (column : list (option Z)) (x : option Z) : option Q :=
  match x with
  | None => None
  | Some v =>
      let less := count_if (fun u => (u <? v)%Z) column in
      let equal := count_if (fun u => (u =? v)%Z) column in
      let valid := count_if (fun _ => true) column in
      Some ((inject_Z less + (inject_Z equal + 1) / 2) / inject_Z valid)
  end.

(** [ds['popularity_percentile']] of the row [d] of the standardized table
    [ds]. *)
Definition popularity_percentile (ds : list raw_row) (d : raw_row) : option Q :=
  rank_pct (map review_count ds) (review_count d).

(** ** Aggregates *)

(** [ds['quality_tier'].value_counts()[label]] *)
Definition tier_count (label : string) (ds : list enriched_row) : nat :=
  List.length (filter (fun e => match quality_tier e with
                                | Some t => String.eqb t label
                                | None => false
                                end) ds).

(** Number of rows of [ds] with the flag [flag] raised. *)
Definition flagged (flag : enriched_row -> bool) (ds : list enriched_row) : nat :=
  List.length (filter flag ds).

(** rap-1, g51: a metric scaled to 0-100 between the column's extremes,
    [((v - min_val) / (max_val - min_val)) * 100 if max_val != min_val else 50],
    over the rationals. *)
Definition normalize (v min_val max_val : Q) : Q :=
  if negb (Qeq_bool max_val min_val)
  then ((v - min_val) / (max_val - min_val)) * 100
  else 50.

(** * Properties *)

(** ** Comparisons and bins *)

Lemma Qlt_bool_true (x y : Q) : Pd.Qlt_bool x y = true <-> x < y.
Proof.
  unfold Pd.Qlt_bool. rewrite negb_true_iff. split.
  - intros H. apply Qnot_le_lt. intros Hle.
    apply Qle_bool_iff in Hle. congruence.
  - intros H. destruct (Qle_bool y x) eqn:E; [|reflexivity].
    apply Qle_bool_iff in E. exfalso. exact (Qlt_not_le _ _ H E).
Qed.

Lemma Qlt_bool_false (x y : Q) : Pd.Qlt_bool x y = false <-> y <= x.
Proof.
  unfold Pd.Qlt_bool. rewrite negb_false_iff. apply Qle_bool_iff.
Qed.

(** Splits on every comparison left in the goal and records its meaning. *)
Ltac split_comparisons :=
  repeat match goal with
  | |- context [Pd.Qlt_bool ?a ?b] =>
      let E := fresh "E" in
      destruct (Pd.Qlt_bool a b) eqn:E;
      [apply Qlt_bool_true in E | apply Qlt_bool_false in E]
  end.

(** Splits a membership in an explicit list into its cases. *)
Ltac in_cases H :=
  repeat match type of H with
  | _ \/ _ => destruct H as [H | H]
  | False => destruct H
  end.

(** C1 (as the script has it): the price category of a row follows the bins
    (0,3.50], (3.50,5.00], (5.00,6.50], (6.50,inf) as budget, moderate,
    premium, luxury, every bin closed on the right; a price of exactly 3.50
    is therefore 'budget', as is 3.49999; a null price, and a price that is
    not above 0, has no category. *)
Theorem price_category_bins (r : raw_row) :
  (avg_beverage_price r = None -> price_category (transform_row r) = None) /\
  (forall p : Q, avg_beverage_price r = Some p ->
     (p <= 0 -> price_category (transform_row r) = None) /\
     (0 < p /\ p <= 35 # 10 -> price_category (transform_row r) = Some "budget") /\
     (35 # 10 < p /\ p <= 5 -> price_category (transform_row r) = Some "moderate") /\
     (5 < p /\ p <= 65 # 10 -> price_category (transform_row r) = Some "premium") /\
     (65 # 10 < p -> price_category (transform_row r) = Some "luxury") /\
     (p == 35 # 10 -> price_category (transform_row r) = Some "budget") /\
     (p == 349999 # 100000 -> price_category (transform_row r) = Some "budget")).
Proof.
  unfold transform_row, enrich; cbn [price_category standardize avg_beverage_price].
  split.
  - intros ->. reflexivity.
  - intros p ->. unfold Pd.cut, price_bins, price_labels.
    cbn [Pd.searchsorted_left Pd.edge_lt List.length].
    repeat split; intros H; split_comparisons; cbn; try reflexivity;
      exfalso;
      try match goal with H : _ /\ _ |- _ => destruct H end;
      try match goal with H : _ == _ |- _ => rewrite H in * end;
      lra.
Qed.

Lemma price_category_bins_witness :
  price_category (transform_row (sample_row (Some (35 # 10)) (Some (46 # 10)) (Some 300%Z)))
  = Some "budget".
Proof.
  destruct (price_category_bins (sample_row (Some (35 # 10)) (Some (46 # 10)) (Some 300%Z)))
    as [_ H].
  destruct (H (35 # 10) eq_refl) as (_ & Hbudget & _).
  apply Hbudget. split; [reflexivity | discriminate].
Defined.

(** C1 as stated fails at the boundary: a row priced exactly 3.50 is
    'budget', not 'moderate'. *)
Lemma price_3_50_is_not_moderate :
  let e := transform_row (sample_row (Some (35 # 10)) (Some (46 # 10)) (Some 300%Z)) in
  price_category e = Some "budget" /\ price_category e <> Some "moderate".
Proof.
  split; [reflexivity | discriminate].
Qed.

(** ** Standardization *)

Lemma invalid_rating_false (r : raw_row) (g : Q) :
  google_rating r = Some g -> invalid_rating r = false -> 1 <= g /\ g <= 5.
Proof.
  unfold invalid_rating. intros ->. cbn [Pd.lt Pd.gt].
  rewrite orb_false_iff, !Qlt_bool_false. tauto.
Qed.

Lemma standardized_rating (r : raw_row) :
  google_rating (standardize r) = if invalid_rating r then None else google_rating r.
Proof. reflexivity. Qed.

Lemma standardized_reviews (r : raw_row) :
  review_count (standardize r) =
  match review_count r with
  | Some n => if (n <? 0)%Z then None else Some n
  | None => None
  end.
Proof.
  cbn [standardize review_count]. destruct (review_count r) as [n|]; cbn [Pd.ltz]; [|reflexivity].
  destruct (n <? 0)%Z; reflexivity.
Qed.

(** C7: after standardization a rating is null or within [1.0, 5.0] and a
    review count is null or non-negative; a raw rating of 6.0 ends as null
    with the no-rating flag raised. *)
Theorem standardized_rating_and_reviews (r : raw_row) :
  let e := transform_row r in
  (forall g : Q, google_rating (row e) = Some g -> 1 <= g /\ g <= 5) /\
  (forall n : Z, review_count (row e) = Some n -> (0 <= n)%Z) /\
  (forall g : Q, google_rating r = Some g -> g == 6 ->
     google_rating (row e) = None /\ flag_no_rating e = true).
Proof.
  cbv zeta. unfold transform_row, enrich. cbn [row flag_no_rating].
  rewrite standardized_rating, standardized_reviews.
  split; [|split].
  - intros g. destruct (invalid_rating r) eqn:E; [discriminate|].
    intros H. exact (invalid_rating_false r g H E).
  - intros n. destruct (review_count r) as [m|]; [|discriminate].
    destruct (m <? 0)%Z eqn:E; [discriminate|].
    intros [= <-]. apply Z.ltb_ge in E. exact E.
  - intros g Hg Hsix.
    assert (Hinv : invalid_rating r = true).
    { unfold invalid_rating. rewrite Hg. cbn [Pd.lt Pd.gt].
      apply orb_true_iff. right. apply Qlt_bool_true. rewrite Hsix. reflexivity. }
    rewrite Hinv. split; reflexivity.
Qed.

Lemma standardized_rating_and_reviews_witness :
  let e := transform_row (sample_row (Some (525 # 100)) (Some 6) (Some 300%Z)) in
  google_rating (row e) = None /\ flag_no_rating e = true.
Proof.
  cbv zeta.
  destruct (standardized_rating_and_reviews
              (sample_row (Some (525 # 100)) (Some 6) (Some 300%Z))) as (_ & _ & H).
  apply (H 6 eq_refl). reflexivity.
Defined.

(** ** Quality flags, their count and the tier *)

Lemma sum_counts_true (mask : list bool) :
  Pd.sum mask = Z.of_nat (List.length (filter (fun b => b) mask)).
Proof.
  induction mask as [|b mask IH]; [reflexivity|].
  cbn [Pd.sum fold_right filter]. fold (Pd.sum mask). rewrite IH.
  destruct b; cbn [Z.b2z List.length]; lia.
Qed.

Lemma tier_of_five_flags (b1 b2 b3 b4 b5 : bool) :
  let count := Pd.sum [b1; b2; b3; b4; b5] in
  (0 <= count <= 5)%Z /\
  Pd.cut tier_bins tier_labels (Some (inject_Z count)) =
  Some (if (count =? 0)%Z then "excellent"
        else if (count =? 1)%Z then "good"
        else if (count =? 2)%Z then "acceptable"
        else "poor").
Proof.
  destruct b1, b2, b3, b4, b5; cbv zeta; split; try reflexivity; cbn; lia.
Qed.

(** C8: the flag count of a row is the number of its five quality flags that
    are true, so it lies between 0 and 5, and the tier is binned from it:
    0 is excellent, 1 good, 2 acceptable, 3 or more poor. *)
Theorem quality_flag_count_and_tier (r : raw_row) :
  let e := transform_row r in
  let flags := [flag_missing_location e; flag_no_rating e; flag_no_price e;
                flag_location_out_of_bounds e; flag_suspicious_price e] in
  quality_flag_count e = Z.of_nat (List.length (filter (fun b => b) flags)) /\
  (0 <= quality_flag_count e <= 5)%Z /\
  quality_tier e =
  Some (if (quality_flag_count e =? 0)%Z then "excellent"
        else if (quality_flag_count e =? 1)%Z then "good"
        else if (quality_flag_count e =? 2)%Z then "acceptable"
        else "poor").
Proof.
  cbv zeta. unfold transform_row, enrich.
  cbn [quality_flag_count quality_tier flag_missing_location flag_no_rating flag_no_price
       flag_location_out_of_bounds flag_suspicious_price].
  split; [apply sum_counts_true | apply tier_of_five_flags].
Qed.

(** ** Quality score *)

(** C9: the quality score of a row is its rating times the natural logarithm
    of its review count plus one; it is null as soon as the rating or the
    review count is null; the argument of the logarithm is positive, a
    negative raw review count having been nulled by the standardization. *)
Theorem quality_score_formula (r : raw_row) :
  let e := transform_row r in
  (forall (g : Q) (n : Z),
     google_rating (row e) = Some g -> review_count (row e) = Some n ->
     (0 < IZR n + 1)%R /\ quality_score e = Some (Q2R g * ln (IZR n + 1))%R) /\
  (google_rating (row e) = None \/ review_count (row e) = None -> quality_score e = None) /\
  (forall n : Z, review_count r = Some n -> (n < 0)%Z ->
     review_count (row e) = None /\ quality_score e = None).
Proof.
  cbv zeta. unfold transform_row, enrich. cbn [row quality_score].
  rewrite standardized_reviews.
  split; [|split].
  - intros g n Hg Hn. rewrite Hg.
    destruct (review_count r) as [m|]; [|discriminate].
    destruct (m <? 0)%Z eqn:E; [discriminate|].
    injection Hn as <-. apply Z.ltb_ge in E.
    assert (Hpos : (0 < m + 1)%Z) by lia.
    rewrite <- (plus_IZR m 1). split.
    + apply (IZR_lt 0). exact Hpos.
    + unfold score, np_log. apply Z.ltb_lt in Hpos. rewrite Hpos. reflexivity.
  - intros [-> | H]; [reflexivity|].
    rewrite H. unfold score. destruct (google_rating (standardize r)); reflexivity.
  - intros n -> Hneg. apply Z.ltb_lt in Hneg. rewrite Hneg.
    split; [reflexivity|]. unfold score. destruct (google_rating (standardize r)); reflexivity.
Qed.

Lemma quality_score_formula_witness :
  let e := transform_row (sample_row (Some (525 # 100)) (Some (46 # 10)) (Some 300%Z)) in
  (0 < IZR 300 + 1)%R /\ quality_score e = Some (Q2R (46 # 10) * ln (IZR 300 + 1))%R.
Proof.
  cbv zeta.
  destruct (quality_score_formula (sample_row (Some (525 # 100)) (Some (46 # 10)) (Some 300%Z)))
    as (H & _ & _).
  apply H; reflexivity.
Defined.

(** ** Flags against the validation masks *)

Lemma flag_suspicious_price_is_warning (r : raw_row) :
  flag_suspicious_price (transform_row r) = price_warnings r.
Proof.
  unfold transform_row, enrich, price_warnings, has_price, price_suspicious.
  cbn [flag_suspicious_price]. destruct (avg_beverage_price r); reflexivity.
Qed.

Lemma flag_missing_location_spec (r : raw_row) :
  flag_missing_location (transform_row r) = true <-> latitude r = None \/ longitude r = None.
Proof.
  unfold transform_row, enrich. cbn [flag_missing_location standardize latitude longitude].
  destruct (latitude r), (longitude r); cbn; split; intros H;
    try reflexivity; try discriminate; try (destruct H; discriminate); auto.
Qed.

Lemma flag_out_of_bounds_is_warning (r : raw_row) :
  Pd.isna (latitude r) = Pd.isna (longitude r) ->
  flag_location_out_of_bounds (transform_row r) = location_warnings r.
Proof.
  unfold transform_row, enrich, location_warnings, has_coords, out_of_bounds.
  cbn [flag_location_out_of_bounds].
  destruct (latitude r), (longitude r); cbn; intros H; try discriminate; reflexivity.
Qed.

(** C5, the script at a row with one coordinate: the validator's location
    mask is false (the coordinates are not both present) while the
    out-of-bounds flag is raised; the flag is taken from [out_of_bounds]
    without the [has_coords] guard the mask applies. *)
Theorem out_of_bounds_flag_without_guard :
  location_warnings row_latitude_only = false /\
  flag_location_out_of_bounds (transform_row row_latitude_only) = true /\
  flag_missing_location (transform_row row_latitude_only) = true.
Proof.
  repeat split.
Qed.

(** ** Square One / competitor split *)

Lemma match_here_spec (pat s : string) :
  Pd.match_here pat s = true <-> exists suf, Pd.lower s = (Pd.lower pat ++ suf)%string.
Proof.
  revert s. induction pat as [|p pat IH]; intros s.
  - cbn. split; [intros _; exists (Pd.lower s); reflexivity | reflexivity].
  - destruct s as [|c s].
    + cbn. split; [discriminate | intros [suf H]; discriminate].
    + cbn [Pd.match_here Pd.lower append]. rewrite andb_true_iff, Ascii.eqb_eq, IH. split.
      * intros [Hc [suf Hs]]. exists suf. rewrite Hc, Hs. reflexivity.
      * intros [suf H]. injection H as Hc Hs. split; [auto | exists suf; exact Hs].
Qed.

Lemma search_spec (pat s : string) :
  Pd.search pat s = true <-> exists pre suf, Pd.lower s = (pre ++ Pd.lower pat ++ suf)%string.
Proof.
  induction s as [|c s IH].
  - cbn [Pd.search]. rewrite orb_false_r, match_here_spec. split.
    + intros [suf H]. exists "", suf. exact H.
    + intros [pre [suf H]]. destruct pre; [exists suf; exact H | discriminate].
  - cbn [Pd.search]. rewrite orb_true_iff, match_here_spec, IH. split.
    + intros [[suf H] | [pre [suf H]]].
      * exists "", suf. exact H.
      * exists (String (Pd.lower_char c) pre), suf. cbn [Pd.lower append]. rewrite H. reflexivity.
    + intros [pre [suf H]]. destruct pre as [|a pre].
      * left. exists suf. exact H.
      * right. cbn [Pd.lower append] in H. injection H as _ H. exists pre, suf. exact H.
Qed.

Lemma split_permutation {A B : Type} (f : A -> B) (p : A -> bool) (l : list A) :
  Permutation (map f (filter p l) ++ map f (filter (fun a => negb (p a)) l)) (map f l).
Proof.
  induction l as [|a l IH]; [constructor|].
  cbn [filter map]. destruct (p a); cbn [negb map app].
  - constructor. exact IH.
  - apply Permutation_sym, Permutation_cons_app, Permutation_sym, IH.
Qed.

Lemma NoDup_map_injective {A B : Type} (f : A -> B) (l : list A) (x y : A) :
  NoDup (map f l) -> In x l -> In y l -> f x = f y -> x = y.
Proof.
  induction l as [|a l IH]; [contradiction|].
  cbn [map]. intros Hnd Hx Hy Hf. inversion Hnd as [|? ? Hnotin Hnd']; subst.
  destruct Hx as [<- | Hx], Hy as [<- | Hy]; auto.
  - exfalso. apply Hnotin. rewrite Hf. apply in_map. exact Hy.
  - exfalso. apply Hnotin. rewrite <- Hf. apply in_map. exact Hx.
Qed.

Lemma eqb_id_eq (a b : option Z) : Pd.eqb_id a b = true <-> a = b.
Proof.
  destruct a as [x|], b as [y|]; cbn; try (split; [discriminate | intros [=]]);
    [|tauto].
  rewrite Z.eqb_eq. split; [intros ->; reflexivity | intros [=]; assumption].
Qed.

Lemma existsb_eqb_id_false (x : option Z) (seen : list (option Z)) :
  existsb (Pd.eqb_id x) seen = false <-> ~ In x seen.
Proof.
  split.
  - intros H Hin. assert (Ht : existsb (Pd.eqb_id x) seen = true).
    { apply existsb_exists. exists x. split; [exact Hin | apply eqb_id_eq; reflexivity]. }
    congruence.
  - intros H. destruct (existsb (Pd.eqb_id x) seen) eqn:E; [|reflexivity].
    apply existsb_exists in E. destruct E as [y [Hy Heq]].
    apply eqb_id_eq in Heq. subst y. contradiction.
Qed.

Lemma duplicated_from_none (seen s : list (option Z)) :
  Pd.any (Pd.duplicated_from seen s) = false <->
  NoDup s /\ (forall x, In x s -> ~ In x seen).
Proof.
  revert seen. induction s as [|x s IH]; intros seen.
  - cbn. split; [intros _; split; [constructor | intros ? []] | reflexivity].
  - cbn [Pd.duplicated_from Pd.any existsb]. fold (Pd.any (Pd.duplicated_from (x :: seen) s)).
    rewrite orb_false_iff, existsb_eqb_id_false, IH. split.
    + intros [Hx [Hnd Hs]]. split.
      * constructor; [|exact Hnd]. intros Hin. apply (Hs x Hin). left. reflexivity.
      * intros y [<- | Hy]; [exact Hx|]. intros Hin. apply (Hs y Hy). right. exact Hin.
    + intros [Hnd Hs]. inversion Hnd as [|? ? Hnotin Hnd']; subst. repeat split.
      * apply Hs. left. reflexivity.
      * exact Hnd'.
      * intros y Hy [<- | Hin]; [contradiction|]. apply (Hs y); [right; exact Hy | exact Hin].
Qed.

Lemma no_duplicates_NoDup (ds_raw : list raw_row) :
  fatal_duplicates ds_raw = false <-> NoDup (map cafe_id ds_raw).
Proof.
  unfold fatal_duplicates, Pd.duplicated. rewrite duplicated_from_none.
  split; [tauto | intros H; split; [exact H | intros ? _ []]].
Qed.

Lemma no_missing_required (ds_raw : list raw_row) :
  fatal_missing ds_raw = false <-> forall r, In r ds_raw -> missing_required r = false.
Proof.
  unfold fatal_missing, Pd.any. induction ds_raw as [|a l IH].
  - cbn. split; [intros _ ? [] | reflexivity].
  - cbn [map existsb]. rewrite orb_false_iff, IH. split.
    + intros [Ha Hl] r [<- | Hr]; auto.
    + intros H. split; [apply H; left; reflexivity | intros r Hr; apply H; right; exact Hr].
Qed.

Lemma get_dropped (column : string) (t : Pd.record) :
  Pd.get column (Pd.drop_column column t) = None.
Proof.
  induction t as [|[k v] t IH]; [reflexivity|].
  cbn [Pd.drop_column filter fst]. destruct (String.eqb k column) eqn:E; cbn [negb].
  - exact IH.
  - cbn [Pd.get]. rewrite E. exact IH.
Qed.

Lemma cafe_id_of_subset_row (e : enriched_row) :
  Pd.get "cafe_id" (Pd.drop_column "is_soc" (to_record e)) =
  Some (Pd.of_option Pd.Int (cafe_id (row e))).
Proof. reflexivity. Qed.

Lemma subset_rows (p : enriched_row -> bool) (ds : list enriched_row) (t : Pd.record) :
  In t (Pd.drop "is_soc" (map to_record (filter p ds))) ->
  exists e, In e ds /\ p e = true /\ t = Pd.drop_column "is_soc" (to_record e).
Proof.
  unfold Pd.drop. rewrite map_map, in_map_iff. intros [e [<- He]].
  apply filter_In in He. destruct He as [He Hp]. exists e. auto.
Qed.

(** C6: on a run that passes the fatal checks, [soc_locations] and
    [competitors] together are [cafes_complete] without its [is_soc] column,
    no [cafe_id] occurs in both, a row goes to [soc_locations] exactly when
    its name contains "square one" in any letter case, and neither table
    has an [is_soc] column any more. *)
Theorem soc_competitors_partition (ds_raw : list raw_row) :
  fatal_missing ds_raw = false ->
  fatal_duplicates ds_raw = false ->
  let ds := transform ds_raw in
  Permutation (soc_locations ds ++ competitors ds) (Pd.drop "is_soc" (cafes_complete ds)) /\
  (forall s c : Pd.record,
     In s (soc_locations ds) -> In c (competitors ds) ->
     Pd.get "cafe_id" s <> Pd.get "cafe_id" c) /\
  (forall e : enriched_row, In e ds ->
     In ("is_soc", Pd.Boolean (is_soc e)) (to_record e) /\
     (is_soc e = true <->
      exists n pre suf : string,
        name (row e) = Some n /\ Pd.lower n = (pre ++ "square one" ++ suf)%string) /\
     (is_soc e = true -> In (Pd.drop_column "is_soc" (to_record e)) (soc_locations ds)) /\
     (is_soc e = false -> In (Pd.drop_column "is_soc" (to_record e)) (competitors ds))) /\
  (forall t : Pd.record,
     In t (soc_locations ds ++ competitors ds) -> Pd.get "is_soc" t = None).
Proof.
  intros Hreq Hdup ds.
  rewrite no_missing_required in Hreq. rewrite no_duplicates_NoDup in Hdup.
  unfold soc_locations, competitors, cafes_complete, Pd.drop.
  split; [|split; [|split]].
  - rewrite !map_map. apply split_permutation.
  - intros s c Hs Hc Heq.
    apply (subset_rows is_soc) in Hs. destruct Hs as [e1 [He1 [Hs1 ->]]].
    apply (subset_rows (fun e => negb (is_soc e))) in Hc. destruct Hc as [e2 [He2 [Hs2 ->]]].
    rewrite !cafe_id_of_subset_row in Heq.
    unfold ds, transform in He1, He2. apply in_map_iff in He1, He2.
    destruct He1 as [r1 [<- Hr1]]. destruct He2 as [r2 [<- Hr2]].
    assert (Hid : cafe_id r1 = cafe_id r2).
    { pose proof (Hreq r1 Hr1) as H1. pose proof (Hreq r2 Hr2) as H2.
      unfold missing_required in H1, H2.
      cbn [transform_row enrich row standardize cafe_id] in Heq.
      destruct (cafe_id r1), (cafe_id r2); try discriminate.
      cbn in Heq. congruence. }
    assert (r1 = r2) by (apply (NoDup_map_injective cafe_id ds_raw); assumption).
    subst r2. rewrite Hs1 in Hs2. discriminate.
  - intros e He. split; [|split; [|split]].
    + unfold to_record. apply in_or_app. right. apply in_or_app. right. left. reflexivity.
    + unfold ds, transform in He. apply in_map_iff in He. destruct He as [r [<- Hr]].
      cbn [transform_row enrich is_soc row standardize name]. unfold Pd.str_contains_nocase.
      destruct (name r) as [n|].
      * rewrite search_spec. cbn [Pd.lower].
        split.
        -- intros [pre [suf H]]. exists n, pre, suf. split; [reflexivity | exact H].
        -- intros [n' [pre [suf [[= <-] H]]]]. exists pre, suf. exact H.
      * split; [discriminate | intros [n' [pre [suf [H _]]]]; discriminate].
    + intros Hsoc. rewrite map_map. apply in_map_iff. exists e. split; [reflexivity|].
      apply filter_In. auto.
    + intros Hsoc. rewrite map_map. apply in_map_iff. exists e. split; [reflexivity|].
      apply filter_In. rewrite Hsoc. auto.
  - intros t Ht. apply in_app_or in Ht. rewrite !map_map in Ht.
    destruct Ht as [Ht | Ht]; apply in_map_iff in Ht; destruct Ht as [e [<- _]];
      apply get_dropped.
Qed.

Lemma soc_competitors_partition_witness :
  Permutation
    (soc_locations (transform sample_table) ++ competitors (transform sample_table))
    (Pd.drop "is_soc" (cafes_complete (transform sample_table))).
Proof.
  destruct (soc_competitors_partition sample_table eq_refl eq_refl) as (Hperm & _).
  exact Hperm.
Defined.

(** ** Runs *)

Lemma missing_required_spec (r : raw_row) :
  missing_required r = true <->
  cafe_id r = None \/ name r = None \/ neighborhood r = None \/ cafe_type r = None.
Proof.
  unfold missing_required.
  destruct (cafe_id r), (name r), (neighborhood r), (cafe_type r); cbn;
    split; intros H; try reflexivity; try discriminate; auto;
    repeat (destruct H as [H | H]; try discriminate); discriminate.
Qed.

Lemma fatal_missing_spec (ds_raw : list raw_row) :
  fatal_missing ds_raw = true <-> null_required_field ds_raw.
Proof.
  unfold fatal_missing, Pd.any, null_required_field. rewrite existsb_exists. split.
  - intros [b [Hb ->]]. apply in_map_iff in Hb. destruct Hb as [r [Hr Hin]].
    exists r. split; [exact Hin | apply missing_required_spec; exact Hr].
  - intros [r [Hin H]]. exists true. split; [|reflexivity].
    apply in_map_iff. exists r. split; [apply missing_required_spec; exact H | exact Hin].
Qed.

Lemma duplicated_from_some (seen s : list (option Z)) :
  Pd.any (Pd.duplicated_from seen s) = true ->
  (exists j x, nth_error s j = Some x /\ In x seen) \/
  (exists i j x, (i < j)%nat /\ nth_error s i = Some x /\ nth_error s j = Some x).
Proof.
  revert seen. induction s as [|x s IH]; intros seen; [discriminate|].
  cbn [Pd.duplicated_from Pd.any existsb]. fold (Pd.any (Pd.duplicated_from (x :: seen) s)).
  rewrite orb_true_iff. intros [Hseen | Hrest].
  - apply existsb_exists in Hseen. destruct Hseen as [y [Hy Heq]].
    apply eqb_id_eq in Heq. subst y. left. exists 0%nat, x. auto.
  - destruct (IH _ Hrest) as [[j [y [Hj [<- | Hy]]]] | [i [j [y [Hlt [Hi Hj]]]]]].
    + right. exists 0%nat, (S j), x. repeat split; [lia | exact Hj].
    + left. exists (S j), y. auto.
    + right. exists (S i), (S j), y. repeat split; [lia | exact Hi | exact Hj].
Qed.

Lemma fatal_duplicates_spec (ds_raw : list raw_row) :
  fatal_duplicates ds_raw = true <-> shared_cafe_id ds_raw.
Proof.
  split.
  - intros H. apply duplicated_from_some in H.
    destruct H as [[j [x [_ []]]] | [i [j [x [Hlt [Hi Hj]]]]]].
    rewrite nth_error_map in Hi, Hj.
    destruct (nth_error ds_raw i) as [r1|] eqn:E1; [|discriminate].
    destruct (nth_error ds_raw j) as [r2|] eqn:E2; [|discriminate].
    cbn in Hi, Hj. exists i, j, r1, r2.
    split; [lia|]. split; [exact E1|]. split; [exact E2|]. congruence.
  - intros [i [j [r1 [r2 [Hne [Hi [Hj Heq]]]]]]].
    destruct (fatal_duplicates ds_raw) eqn:E; [reflexivity|]. exfalso.
    apply no_duplicates_NoDup in E. apply Hne.
    apply (proj1 (NoDup_nth_error (map cafe_id ds_raw))); [exact E | |].
    + rewrite length_map. apply nth_error_Some. rewrite Hi. discriminate.
    + rewrite !nth_error_map, Hi, Hj. cbn. rewrite Heq. reflexivity.
Qed.

(** A run stopped by a fatal check: status 1, the store untouched. *)
Lemma run_fatal (env : environment) (writes : nat -> write_result)
      (ds_raw : list raw_row) (fs : filesystem) :
  fatal_missing ds_raw = true \/ fatal_duplicates ds_raw = true ->
  run env writes ds_raw fs = (Exit 1, {| store := fs; written := [] |}).
Proof.
  unfold run, ferry. intros [H | H].
  - rewrite H. reflexivity.
  - rewrite H. destruct (fatal_missing ds_raw); reflexivity.
Qed.

(** A run past the fatal checks on which section 4 raises: status 1, the
    store untouched. *)
Lemma run_raises (env : environment) (writes : nat -> write_result)
      (ds_raw : list raw_row) (fs : filesystem) :
  fatal_missing ds_raw = false ->
  fatal_duplicates ds_raw = false ->
  enrichment_raises ds_raw = true ->
  run env writes ds_raw fs = (Exit 1, {| store := fs; written := [] |}).
Proof.
  intros Hm Hd He. unfold run, ferry. rewrite Hm, Hd, He. reflexivity.
Qed.

(** A column with a value in some row is no object column, and a column of
    one or more rows without any value is one on which the script raises. *)
Lemma object_dtype_false {A : Type} (f : raw_row -> option A) (ds_raw : list raw_row) :
  Pd.object_dtype (map f ds_raw) = false <-> has_value f ds_raw.
Proof.
  unfold Pd.object_dtype, has_value. induction ds_raw as [|r t IH].
  - cbn. split; [discriminate | intros [r [[] _]]].
  - cbn [map forallb In]. rewrite andb_false_iff, IH. split.
    + intros [H | [x [Hx Hv]]].
      * exists r. split; [left; reflexivity|]. destruct (f r); [discriminate | discriminate H].
      * exists x. split; [right; exact Hx | exact Hv].
    + intros [x [[<- | Hx] Hv]].
      * left. destruct (f r); [reflexivity | contradiction Hv; reflexivity].
      * right. exists x. split; assumption.
Qed.

Lemma raises_type_error_spec {A : Type} (f : raw_row -> option A) (ds_raw : list raw_row) :
  Pd.raises_type_error (map f ds_raw) = true <-> ds_raw <> [] /\ ~ has_value f ds_raw.
Proof.
  rewrite <- object_dtype_false. destruct ds_raw as [|r t].
  - cbn. split; [discriminate | intros [H _]; contradiction H; reflexivity].
  - cbn [map Pd.raises_type_error]. split.
    + intros H. split; [discriminate | rewrite H; discriminate].
    + intros [_ H]. destruct (Pd.object_dtype (f r :: map f t)); [reflexivity|].
      contradiction H. reflexivity.
Qed.

Lemma enrichment_goes_through (ds_raw : list raw_row) :
  has_value avg_beverage_price ds_raw ->
  has_value review_count ds_raw ->
  enrichment_raises ds_raw = false.
Proof.
  intros Hp Hr. unfold enrichment_raises. apply orb_false_iff.
  split; apply not_true_is_false; intros H; apply raises_type_error_spec in H;
    destruct H as [_ H]; contradiction.
Qed.

(** A run past the fatal checks and past section 4: the old file is gone and
    the tables are written in order up to the first failing write, of which
    an empty table may stay. *)
Lemma run_shape (env : environment) (writes : nat -> write_result)
      (ds_raw : list raw_row) (fs : filesystem) :
  fatal_missing ds_raw = false ->
  fatal_duplicates ds_raw = false ->
  enrichment_raises ds_raw = false ->
  exists k : nat,
    (k <= 6)%nat /\
    (forall i, (i < k)%nat -> writes i = Written) /\
    ((k < 6)%nat -> writes k <> Written) /\
    run env writes ds_raw fs =
    ((if (k =? 6)%nat then Next tt else Exit 1),
     {| store := Some (firstn k (derived_tables env ds_raw) ++
                       leftover (derived_tables env ds_raw) k (writes k));
        written := firstn k (derived_tables env ds_raw) ++
                   leftover (derived_tables env ds_raw) k (writes k) |}).
Proof.
  intros Hm Hd He. unfold run, ferry. rewrite Hm, Hd, He.
  destruct (writes 0%nat) eqn:E0; [|exists 0%nat|exists 0%nat];
  [destruct (writes 1%nat) eqn:E1; [|exists 1%nat|exists 1%nat];
   [destruct (writes 2%nat) eqn:E2; [|exists 2%nat|exists 2%nat];
    [destruct (writes 3%nat) eqn:E3; [|exists 3%nat|exists 3%nat];
     [destruct (writes 4%nat) eqn:E4; [|exists 4%nat|exists 4%nat];
      [destruct (writes 5%nat) eqn:E5; [exists 6%nat|exists 5%nat|exists 5%nat]
      |..]|..]|..]|..]|..];
    (split; [lia|]);
    (split; [intros i Hi; do 6 (destruct i as [|i]; [assumption || lia|]); lia|]);
    (split; [intros; congruence || lia|]);
    unfold write_derived, bind, remove_existing, connect, to_sql; cbn [store written];
    repeat match goal with E : writes _ = _ |- _ => rewrite E; clear E end;
    reflexivity.
Qed.

Lemma run_no_failure (env : environment) (ds_raw : list raw_row) (fs : filesystem) :
  fatal_missing ds_raw = false ->
  fatal_duplicates ds_raw = false ->
  enrichment_raises ds_raw = false ->
  run env no_failure ds_raw fs =
  (Next tt, {| store := Some (derived_tables env ds_raw);
               written := derived_tables env ds_raw |}).
Proof.
  intros Hm Hd He.
  destruct (run_shape env no_failure ds_raw fs Hm Hd He) as (k & Hk & _ & Hfail & ->).
  assert (k = 6%nat) as ->.
  { destruct (Nat.eq_dec k 6) as [? | Hne]; [assumption|].
    assert (Hlt : (k < 6)%nat) by lia. apply Hfail in Hlt. contradiction Hlt. reflexivity. }
  reflexivity.
Qed.

Lemma run_fails_at (env : environment) (ds_raw : list raw_row) (fs : filesystem)
      (k : nat) (how : write_result) :
  fatal_missing ds_raw = false ->
  fatal_duplicates ds_raw = false ->
  enrichment_raises ds_raw = false ->
  (k < 6)%nat ->
  how <> Written ->
  run env (fails_at k how) ds_raw fs =
  (Exit 1,
   {| store := Some (firstn k (derived_tables env ds_raw) ++
                     leftover (derived_tables env ds_raw) k how);
      written := firstn k (derived_tables env ds_raw) ++
                 leftover (derived_tables env ds_raw) k how |}).
Proof.
  intros Hm Hd He Hk Hhow.
  destruct (run_shape env (fails_at k how) ds_raw fs Hm Hd He)
    as (j & Hj & Hbefore & Hfail & ->).
  assert (j = k) as ->.
  { destruct (Nat.lt_trichotomy j k) as [Hlt | [? | Hgt]]; [|assumption|].
    - assert (H6 : (j < 6)%nat) by lia. apply Hfail in H6. exfalso. apply H6.
      unfold fails_at. replace (j =? k)%nat with false; [reflexivity|].
      symmetry. apply Nat.eqb_neq. lia.
    - specialize (Hbefore k Hgt). unfold fails_at in Hbefore.
      rewrite Nat.eqb_refl in Hbefore. contradiction. }
  replace (k =? 6)%nat with false by (symmetry; apply Nat.eqb_neq; lia).
  unfold fails_at. rewrite Nat.eqb_refl. reflexivity.
Qed.

(** C2 (as the script has it): a raw table with a null required field or
    with a [cafe_id] shared by two rows makes the run end with status 1 and
    write no table.  Of the other raw tables, one with a price in some row
    and a review count in some row makes the run end with status 0 having
    written the six tables; one that has rows but no price at all, or no
    review count at all, makes it end with status 1, by the [TypeError] of
    section 4, with no table written and the store as it was. *)
Theorem fatal_checks_gate_the_write
        (env : environment) (ds_raw : list raw_row) (fs : filesystem) :
  let out := run env no_failure ds_raw fs in
  (null_required_field ds_raw \/ shared_cafe_id ds_raw ->
     exit_status (fst out) = 1%Z /\ exit_status (fst out) <> 0%Z /\
     written (snd out) = [] /\ store (snd out) = fs) /\
  (~ (null_required_field ds_raw \/ shared_cafe_id ds_raw) ->
     (has_value avg_beverage_price ds_raw -> has_value review_count ds_raw ->
        exit_status (fst out) = 0%Z /\
        map fst (written (snd out)) = six_tables /\
        written (snd out) = derived_tables env ds_raw /\
        store (snd out) = Some (derived_tables env ds_raw)) /\
     (ds_raw <> [] ->
      ~ has_value avg_beverage_price ds_raw \/ ~ has_value review_count ds_raw ->
        exit_status (fst out) = 1%Z /\ exit_status (fst out) <> 0%Z /\
        written (snd out) = [] /\ store (snd out) = fs)).
Proof.
  cbv zeta. split.
  - intros H. rewrite run_fatal.
    + cbn. repeat split. discriminate.
    + destruct H as [H | H]; [left; apply fatal_missing_spec | right; apply fatal_duplicates_spec];
        exact H.
  - intros H.
    assert (Hm : fatal_missing ds_raw = false).
    { destruct (fatal_missing ds_raw) eqn:E; [|reflexivity].
      exfalso. apply H. left. apply fatal_missing_spec. exact E. }
    assert (Hd : fatal_duplicates ds_raw = false).
    { destruct (fatal_duplicates ds_raw) eqn:E; [|reflexivity].
      exfalso. apply H. right. apply fatal_duplicates_spec. exact E. }
    split.
    + intros Hp Hr.
      rewrite (run_no_failure env ds_raw fs Hm Hd (enrichment_goes_through ds_raw Hp Hr)).
      cbn. repeat split.
    + intros Hrows Hnone. rewrite run_raises; [| exact Hm | exact Hd |].
      * cbn. repeat split. discriminate.
      * unfold enrichment_raises. apply orb_true_iff.
        destruct Hnone as [Hn | Hn]; [left | right];
          apply raises_type_error_spec; split; assumption.
Qed.

Lemma fatal_checks_gate_the_write_witness :
  (let out := run sample_env no_failure (sample_table ++ sample_table) None in
   exit_status (fst out) = 1%Z /\ exit_status (fst out) <> 0%Z /\
   written (snd out) = [] /\ store (snd out) = None) /\
  (let out := run sample_env no_failure sample_table None in
   exit_status (fst out) = 0%Z /\
   map fst (written (snd out)) = six_tables /\
   written (snd out) = derived_tables sample_env sample_table /\
   store (snd out) = Some (derived_tables sample_env sample_table)) /\
  (let out := run sample_env no_failure table_without_price prior_store in
   exit_status (fst out) = 1%Z /\ exit_status (fst out) <> 0%Z /\
   written (snd out) = [] /\ store (snd out) = prior_store).
Proof.
  assert (Hpass : forall t,
            fatal_missing t = false -> fatal_duplicates t = false ->
            ~ (null_required_field t \/ shared_cafe_id t)).
  { intros t Hm Hd [H | H].
    - apply fatal_missing_spec in H. congruence.
    - apply fatal_duplicates_spec in H. congruence. }
  cbv zeta. split; [|split].
  - apply (proj1 (fatal_checks_gate_the_write sample_env (sample_table ++ sample_table) None)).
    right. exists 0%nat, 2%nat. eexists. eexists.
    split; [discriminate|]. split; [reflexivity|]. split; reflexivity.
  - apply (proj2 (fatal_checks_gate_the_write sample_env sample_table None)
             (Hpass sample_table eq_refl eq_refl)).
    + eexists. split; [left; reflexivity | discriminate].
    + eexists. split; [left; reflexivity | discriminate].
  - apply (proj2 (fatal_checks_gate_the_write sample_env table_without_price prior_store)
             (Hpass table_without_price eq_refl eq_refl)).
    + discriminate.
    + left. intros [r [[<- | []] Hv]]. apply Hv. reflexivity.
Defined.

(** C2 as stated fails on a table of one valid row without a price: no
    required field is null and no [cafe_id] is shared, yet the run ends with
    status 1 and leaves the store of the previous run in place; the same
    holds of a table in which no row has a review count. *)
Lemma run_without_price_fails :
  ~ (null_required_field table_without_price \/ shared_cafe_id table_without_price) /\
  (let out := run sample_env no_failure table_without_price prior_store in
   exit_status (fst out) = 1%Z /\ written (snd out) = [] /\ store (snd out) = prior_store) /\
  ~ (null_required_field table_without_reviews \/ shared_cafe_id table_without_reviews) /\
  (let out := run sample_env no_failure table_without_reviews prior_store in
   exit_status (fst out) = 1%Z /\ written (snd out) = [] /\ store (snd out) = prior_store).
Proof.
  assert (Hpass : forall t,
            fatal_missing t = false -> fatal_duplicates t = false ->
            ~ (null_required_field t \/ shared_cafe_id t)).
  { intros t Hm Hd [H | H].
    - apply fatal_missing_spec in H. congruence.
    - apply fatal_duplicates_spec in H. congruence. }
  cbv zeta. split; [apply Hpass; reflexivity|]. split; [repeat split|].
  split; [apply Hpass; reflexivity | repeat split].
Qed.

(** ** Warnings in the metadata *)

Lemma sum_of_mask {A : Type} (mask : A -> bool) (l : list A) :
  Pd.sum (map mask l) = Z.of_nat (List.length (filter mask l)).
Proof.
  induction l as [|a l IH]; [reflexivity|].
  cbn [map Pd.sum fold_right filter]. fold (Pd.sum (map mask l)). rewrite IH.
  destruct (mask a); cbn [Z.b2z List.length]; lia.
Qed.

Lemma sum_when_none (mask : list bool) : Pd.any mask = false -> Pd.sum mask = 0%Z.
Proof.
  induction mask as [|b mask IH]; [reflexivity|].
  cbn [Pd.any existsb Pd.sum fold_right]. intros H. apply orb_false_iff in H.
  destruct H as [-> H]. fold (Pd.sum mask). rewrite (IH H). reflexivity.
Qed.

Lemma validation_warnings_total (ds_raw : list raw_row) :
  validation_warnings ds_raw =
  (Z.of_nat (List.length (filter location_warnings ds_raw)) +
   Z.of_nat (List.length (filter price_warnings ds_raw)) +
   Z.of_nat (List.length (filter rating_warnings ds_raw)))%Z.
Proof.
  unfold validation_warnings. cbv zeta. rewrite <- !sum_of_mask.
  destruct (Pd.any (map location_warnings ds_raw)) eqn:E1;
    destruct (Pd.any (map price_warnings ds_raw)) eqn:E2;
    destruct (Pd.any (map rating_warnings ds_raw)) eqn:E3;
    try rewrite (sum_when_none _ E1); try rewrite (sum_when_none _ E2);
    try rewrite (sum_when_none _ E3); lia.
Qed.

(** C3 (as the script has it): on a run that passes the fatal checks and
    reaches the write, its table having a price in some row and a review
    count in some row, the warning total in the metadata table is the number
    of rows with out-of-bounds coordinates plus the number with an
    implausible price plus the number with an invalid rating; a negative
    review count is corrected to null by the standardization and is not part
    of that total. *)
Theorem warning_total_in_metadata
        (env : environment) (ds_raw : list raw_row) (fs : filesystem) :
  fatal_missing ds_raw = false ->
  fatal_duplicates ds_raw = false ->
  has_value avg_beverage_price ds_raw ->
  has_value review_count ds_raw ->
  (exists m : Pd.record,
     read_table "metadata" (store (snd (run env no_failure ds_raw fs))) = Some [m] /\
     Pd.get "validation_warnings" m =
     Some (Pd.Int (Z.of_nat (List.length (filter location_warnings ds_raw)) +
                   Z.of_nat (List.length (filter price_warnings ds_raw)) +
                   Z.of_nat (List.length (filter rating_warnings ds_raw))))) /\
  (forall (r : raw_row) (n : Z),
     In r ds_raw -> review_count r = Some n -> (n < 0)%Z ->
     review_count (row (transform_row r)) = None).
Proof.
  intros Hm Hd Hp Hr. split.
  - rewrite (run_no_failure env ds_raw fs Hm Hd (enrichment_goes_through ds_raw Hp Hr)).
    cbn [snd store]. eexists. split; [reflexivity|].
    cbn. rewrite validation_warnings_total. reflexivity.
  - intros r n _ Hn Hneg. unfold transform_row, enrich. cbn [row].
    rewrite standardized_reviews, Hn. apply Z.ltb_lt in Hneg. rewrite Hneg. reflexivity.
Qed.

Lemma warning_total_in_metadata_witness :
  exists m : Pd.record,
    read_table "metadata" (store (snd (run sample_env no_failure sample_table None))) = Some [m] /\
    Pd.get "validation_warnings" m = Some (Pd.Int 1).
Proof.
  assert (Hp : has_value avg_beverage_price sample_table).
  { eexists. split; [left; reflexivity | discriminate]. }
  assert (Hr : has_value review_count sample_table).
  { eexists. split; [left; reflexivity | discriminate]. }
  destruct (warning_total_in_metadata sample_env sample_table None eq_refl eq_refl Hp Hr)
    as [[m [Hm Hw]] _].
  exists m. split; [exact Hm | exact Hw].
Defined.

(** C3 as stated fails: a row whose only defect is a negative review count
    has the count nulled, and the warning total of the run stays 0. *)
Lemma negative_review_count_not_counted :
  let r := sample_row (Some (525 # 100)) (Some (46 # 10)) (Some (-5)%Z) in
  review_count (row (transform_row r)) = None /\
  option_map (map (Pd.get "validation_warnings"))
    (read_table "metadata" (store (snd (run sample_env no_failure [r] None))))
  = Some [Some (Pd.Int 0)].
Proof.
  split; reflexivity.
Qed.

(** ** A write that fails partway *)

(** C4 (as the script has it): when one of the six writes fails on a run
    that reached them, past the fatal checks and section 4, the run ends
    with status 1; the prior
    store has been removed by then, so the store left behind holds what this
    run wrote and nothing else: old and new tables are never mixed.  What is
    left is the tables written before the failure (and the failing table,
    empty, when the failure came after its creation): a partial store, not
    the complete new one. *)
Theorem failed_write_leaves_partial_store
        (env : environment) (ds_raw : list raw_row) (fs : filesystem)
        (k : nat) (how : write_result) :
  fatal_missing ds_raw = false ->
  fatal_duplicates ds_raw = false ->
  enrichment_raises ds_raw = false ->
  (k < 6)%nat ->
  how <> Written ->
  let out := run env (fails_at k how) ds_raw fs in
  exit_status (fst out) = 1%Z /\
  store (snd out) = Some (written (snd out)) /\
  written (snd out) =
    firstn k (derived_tables env ds_raw) ++ leftover (derived_tables env ds_raw) k how /\
  store (snd out) <> Some (derived_tables env ds_raw).
Proof.
  intros Hm Hd He Hk Hhow. cbv zeta.
  rewrite (run_fails_at env ds_raw fs k how Hm Hd He Hk Hhow).
  cbn [fst snd store written exit_status].
  split; [reflexivity|]. split; [reflexivity|]. split; [reflexivity|].
  assert (Hcases : (k = 0 \/ k = 1 \/ k = 2 \/ k = 3 \/ k = 4 \/ k = 5)%nat) by lia.
  destruct Hcases as [-> | [-> | [-> | [-> | [-> | ->]]]]];
    destruct how; try contradiction; cbn; discriminate.
Qed.

Lemma failed_write_leaves_partial_store_witness :
  exit_status (fst (run sample_env (fails_at 2 FailedOnCreate) sample_table None)) = 1%Z /\
  table_names (store (snd (run sample_env (fails_at 2 FailedOnCreate) sample_table None))) =
  ["cafes_complete"; "soc_locations"].
Proof.
  assert (Hhow : FailedOnCreate <> Written) by discriminate.
  destruct (failed_write_leaves_partial_store sample_env sample_table None 2 FailedOnCreate
              eq_refl eq_refl eq_refl (le_S _ _ (le_S _ _ (le_S _ _ (le_n 3)))) Hhow)
    as (Hstatus & Hstore & Hwritten & _).
  split; [exact Hstatus|]. rewrite Hstore, Hwritten. reflexivity.
Defined.

(** C4 as stated fails: when the third write fails, the prior store is gone
    and the new store holds two of the six tables (three, the third empty,
    when the failure came after the table's creation); neither complete
    store is in place. *)
Lemma partial_store_after_failed_write :
  table_names prior_store = six_tables /\
  (let out := run sample_env (fails_at 2 FailedOnCreate) sample_table prior_store in
   exit_status (fst out) = 1%Z /\
   table_names (store (snd out)) = ["cafes_complete"; "soc_locations"] /\
   store (snd out) <> prior_store /\
   store (snd out) <> Some (derived_tables sample_env sample_table)) /\
  (let out := run sample_env (fails_at 2 FailedOnInsert) sample_table prior_store in
   exit_status (fst out) = 1%Z /\
   table_names (store (snd out)) = ["cafes_complete"; "soc_locations"; "competitors"] /\
   read_table "competitors" (store (snd out)) = Some [] /\
   store (snd out) <> prior_store /\
   store (snd out) <> Some (derived_tables sample_env sample_table)).
Proof.
  cbv zeta. split; [reflexivity|]. split.
  - split; [reflexivity|]. split; [reflexivity|].
    split; intros H; apply (f_equal table_names) in H; discriminate H.
  - split; [reflexivity|]. split; [reflexivity|]. split; [reflexivity|].
    split; intros H; apply (f_equal table_names) in H; discriminate H.
Qed.

(** ** The error counter *)

(** C10: whatever a run writes as its metadata table has
    [validation_errors] equal to 0; a run stopped by a fatal check writes
    nothing, as does one stopped by an error of section 4, and past them
    the counter is still at its initial 0. *)
Theorem written_validation_errors_zero
        (env : environment) (writes : nat -> write_result)
        (ds_raw : list raw_row) (fs : filesystem) :
  let out := run env writes ds_raw fs in
  (fatal_missing ds_raw = true \/ fatal_duplicates ds_raw = true ->
     written (snd out) = [] /\ store (snd out) = fs) /\
  (forall m : Pd.frame,
     In ("metadata", m) (written (snd out)) ->
     read_table "metadata" (store (snd out)) = Some m /\
     forall r : Pd.record, In r m -> Pd.get "validation_errors" r = Some (Pd.Int 0)).
Proof.
  cbv zeta. split.
  - intros H. rewrite (run_fatal env writes ds_raw fs H). split; reflexivity.
  - intros m.
    destruct (fatal_missing ds_raw) eqn:Hm.
    { rewrite run_fatal by (left; exact Hm). intros []. }
    destruct (fatal_duplicates ds_raw) eqn:Hd.
    { rewrite run_fatal by (right; exact Hd). intros []. }
    destruct (enrichment_raises ds_raw) eqn:He.
    { rewrite (run_raises env writes ds_raw fs Hm Hd He). intros []. }
    destruct (run_shape env writes ds_raw fs Hm Hd He) as (k & Hk & _ & _ & ->).
    cbn [snd written store].
    assert (Hcases : (k = 0 \/ k = 1 \/ k = 2 \/ k = 3 \/ k = 4 \/ k = 5 \/ k = 6)%nat) by lia.
    destruct Hcases as [-> | [-> | [-> | [-> | [-> | [-> | ->]]]]]];
      cbn [firstn derived_tables leftover nth_error app];
      try match goal with |- context [writes ?i] => destruct (writes i) end;
      cbn [app In]; intros Hin; in_cases Hin; try discriminate Hin;
      injection Hin as <-; (split; [reflexivity|]);
      intros r Hr; cbn [metadata In] in Hr; in_cases Hr; subst r; reflexivity.
Qed.

Lemma written_validation_errors_zero_witness :
  read_table "metadata" (store (snd (run sample_env no_failure sample_table None))) =
  Some (metadata sample_env sample_table (transform sample_table)) /\
  map (Pd.get "validation_errors") (metadata sample_env sample_table (transform sample_table)) =
  [Some (Pd.Int 0)].
Proof.
  destruct (written_validation_errors_zero sample_env no_failure sample_table None) as [_ H].
  destruct (H (metadata sample_env sample_table (transform sample_table))) as [Hread Hzero].
  - rewrite run_no_failure by reflexivity.
    cbn [snd written derived_tables In]. do 5 right. left. reflexivity.
  - split; [exact Hread|].
    cbn [metadata map]. rewrite Hzero; [reflexivity | left; reflexivity].
Defined.

(** * Further properties of the ferry *)

(** ** Row counts *)

(** X1: a run that passes the fatal checks and reaches the write, its table
    having a price in some row and a review count in some row, drops no
    row: [cafes_complete] has one row per raw row, [soc_locations] and
    [competitors] share them out, and the metadata records that number as
    input and as output. *)
Theorem no_rows_dropped (env : environment) (ds_raw : list raw_row) (fs : filesystem) :
  fatal_missing ds_raw = false ->
  fatal_duplicates ds_raw = false ->
  has_value avg_beverage_price ds_raw ->
  has_value review_count ds_raw ->
  exists (cafes soc comp : Pd.frame) (m : Pd.record),
    read_table "cafes_complete" (store (snd (run env no_failure ds_raw fs))) = Some cafes /\
    read_table "soc_locations" (store (snd (run env no_failure ds_raw fs))) = Some soc /\
    read_table "competitors" (store (snd (run env no_failure ds_raw fs))) = Some comp /\
    read_table "metadata" (store (snd (run env no_failure ds_raw fs))) = Some [m] /\
    List.length cafes = List.length ds_raw /\
    (List.length soc + List.length comp)%nat = List.length ds_raw /\
    Pd.get "input_records" m = Some (Pd.Int (Z.of_nat (List.length ds_raw))) /\
    Pd.get "output_records" m = Some (Pd.Int (Z.of_nat (List.length ds_raw))).
Proof.
  intros Hm Hd Hp Hr.
  rewrite (run_no_failure env ds_raw fs Hm Hd (enrichment_goes_through ds_raw Hp Hr)).
  cbn [snd store]. do 4 eexists.
  split; [reflexivity|]. split; [reflexivity|]. split; [reflexivity|]. split; [reflexivity|].
  unfold cafes_complete, soc_locations, competitors, Pd.drop, transform.
  rewrite !length_map.
  split; [reflexivity|]. split.
  - rewrite filter_length. apply length_map.
  - cbn. rewrite ?length_map. split; reflexivity.
Qed.

Lemma no_rows_dropped_witness :
  exists (cafes soc comp : Pd.frame) (m : Pd.record),
    read_table "cafes_complete" (store (snd (run sample_env no_failure sample_table None)))
      = Some cafes /\
    read_table "soc_locations" (store (snd (run sample_env no_failure sample_table None)))
      = Some soc /\
    read_table "competitors" (store (snd (run sample_env no_failure sample_table None)))
      = Some comp /\
    read_table "metadata" (store (snd (run sample_env no_failure sample_table None)))
      = Some [m] /\
    List.length cafes = 2%nat /\
    (List.length soc + List.length comp)%nat = 2%nat /\
    Pd.get "input_records" m = Some (Pd.Int 2) /\
    Pd.get "output_records" m = Some (Pd.Int 2).
Proof.
  apply (no_rows_dropped sample_env sample_table None eq_refl eq_refl).
  - eexists. split; [left; reflexivity | discriminate].
  - eexists. split; [left; reflexivity | discriminate].
Defined.

(** ** Warning masks and their total *)

Lemma filter_none {A : Type} (f : A -> bool) (l : list A) :
  List.length (filter f l) = 0%nat <-> forall a, In a l -> f a = false.
Proof.
  induction l as [|a l IH]; cbn [filter In].
  - split; [intros _ ? [] | reflexivity].
  - destruct (f a) eqn:E; cbn [List.length].
    + split; [discriminate|]. intros H. rewrite (H a) in E by (left; reflexivity). discriminate.
    + rewrite IH. split.
      * intros H b [<- | Hb]; auto.
      * intros H b Hb. apply H. right. exact Hb.
Qed.


(** X3: what each warning mask means.  A row is a location warning exactly
    when both coordinates are present and one lies strictly outside the box,
    a price warning exactly when the price is present and strictly below
    2.00 or above 10.00, a rating warning exactly when the rating is present
    and strictly below 1.0 or above 5.0; a value on a bound does not warn,
    and neither does a null. *)
Theorem warning_masks_meaning (r : raw_row) :
  (location_warnings r = true <->
   exists lat lng : Q,
     latitude r = Some lat /\ longitude r = Some lng /\
     (lat < EDMONTON_lat_min \/ EDMONTON_lat_max < lat \/
      lng < EDMONTON_lng_min \/ EDMONTON_lng_max < lng)) /\
  (price_warnings r = true <->
   exists p : Q, avg_beverage_price r = Some p /\ (p < 2 \/ 10 < p)) /\
  (rating_warnings r = true <->
   exists g : Q, google_rating r = Some g /\ (g < 1 \/ 5 < g)).
Proof.
  unfold location_warnings, has_coords, out_of_bounds, price_warnings, has_price,
    price_suspicious, rating_warnings, has_rating, invalid_rating,
    PRICE_RANGE_min, PRICE_RANGE_max.
  split; [|split].
  - destruct (latitude r) as [lat|], (longitude r) as [lng|]; cbn [Pd.notna Pd.isna negb andb Pd.lt Pd.gt];
      try (split; [discriminate | intros (? & ? & H & H' & _); discriminate]).
    rewrite !orb_true_iff, !Qlt_bool_true. split.
    + intros H. exists lat, lng. tauto.
    + intros (? & ? & [= <-] & [= <-] & H). tauto.
  - destruct (avg_beverage_price r) as [p|]; cbn [Pd.notna Pd.isna negb andb Pd.lt Pd.gt];
      [|split; [discriminate | intros (? & H & _); discriminate]].
    rewrite orb_true_iff, !Qlt_bool_true. split.
    + intros H. exists p. tauto.
    + intros (? & [= <-] & H). tauto.
  - destruct (google_rating r) as [g|]; cbn [Pd.notna Pd.isna negb andb Pd.lt Pd.gt];
      [|split; [discriminate | intros (? & H & _); discriminate]].
    rewrite orb_true_iff, !Qlt_bool_true. split.
    + intros H. exists g. tauto.
    + intros (? & [= <-] & H). tauto.
Qed.

(** ** Price category, flags and tier together *)

(** X6: a row has no price category exactly when its price is null or not
    above 0, and such a row never goes unflagged: it carries the no-price
    flag or the suspicious-price flag. *)
Theorem no_price_category_is_flagged (r : raw_row) :
  (price_category (transform_row r) = None <->
   avg_beverage_price r = None \/
   exists p : Q, avg_beverage_price r = Some p /\ p <= 0) /\
  (price_category (transform_row r) = None ->
   flag_no_price (transform_row r) = true \/
   flag_suspicious_price (transform_row r) = true).
Proof.
  unfold transform_row, enrich, price_suspicious, PRICE_RANGE_min, PRICE_RANGE_max.
  cbn [price_category flag_no_price flag_suspicious_price standardize avg_beverage_price].
  destruct (avg_beverage_price r) as [p|]; cbn [Pd.isna Pd.lt Pd.gt].
  - unfold Pd.cut, price_bins, price_labels.
    cbn [Pd.searchsorted_left Pd.edge_lt List.length].
    split; [split|].
    + intros H. right. exists p. split; [reflexivity|].
      revert H. split_comparisons; cbn; try discriminate; intros _; assumption.
    + intros [H | (q & [= <-] & H)]; [discriminate|].
      split_comparisons; cbn; try reflexivity; exfalso; lra.
    + intros H. right. apply orb_true_iff. left. apply Qlt_bool_true.
      revert H. split_comparisons; cbn; try discriminate; intros _; lra.
  - split; [split; [left; reflexivity | reflexivity] | left; reflexivity].
Qed.

(** X7: a row is in the 'excellent' tier exactly when it has both
    coordinates inside the box, a rating within [1.0, 5.0] and a price
    within [2.00, 10.00]. *)
Theorem excellent_tier_meaning (r : raw_row) :
  quality_tier (transform_row r) = Some "excellent" <->
  exists lat lng g p : Q,
    latitude r = Some lat /\ longitude r = Some lng /\
    google_rating r = Some g /\ avg_beverage_price r = Some p /\
    (EDMONTON_lat_min <= lat /\ lat <= EDMONTON_lat_max) /\
    (EDMONTON_lng_min <= lng /\ lng <= EDMONTON_lng_max) /\
    (1 <= g /\ g <= 5) /\ (2 <= p /\ p <= 10).
Proof.
  unfold transform_row, enrich. cbn [quality_tier].
  rewrite standardized_rating.
  cbn [standardize latitude longitude avg_beverage_price].
  unfold out_of_bounds, price_suspicious, invalid_rating, PRICE_RANGE_min, PRICE_RANGE_max.
  destruct (latitude r) as [lat|], (longitude r) as [lng|],
           (google_rating r) as [g|], (avg_beverage_price r) as [p|];
    cbn [Pd.isna Pd.lt Pd.gt orb].
  1: { split.
       - intros H. exists lat, lng, g, p.
         repeat (split; [reflexivity|]).
         revert H. split_comparisons; cbn; try discriminate; intros _;
           repeat split; assumption.
       - intros (? & ? & ? & ? & [= <-] & [= <-] & [= <-] & [= <-]
                 & [H1 H2] & [H3 H4] & [H5 H6] & [H7 H8]).
         apply Qlt_bool_false in H1, H2, H3, H4, H5, H6, H7, H8.
         rewrite H1, H2, H3, H4, H5, H6, H7, H8. reflexivity. }
  all: split;
    [ intros H; exfalso; revert H;
      repeat match goal with
      | |- context [Pd.Qlt_bool ?a ?b] => destruct (Pd.Qlt_bool a b)
      end; cbn; discriminate
    | intros (? & ? & ? & ? & H1 & H2 & H3 & H4 & _); discriminate ].
Qed.

Lemma sum_of_five_exclusive (b1 b2 b3 b4 b5 : bool) :
  b3 && b5 = false -> (Pd.sum [b1; b2; b3; b4; b5] <= 4)%Z.
Proof.
  destruct b1, b2, b3, b4, b5; cbn; intros H; try discriminate; lia.
Qed.

(** X8: no row raises all five flags: the no-price flag and the
    suspicious-price flag exclude each other, so the flag count is at most
    4; and 4 is reached. *)
Theorem at_most_four_flags (r : raw_row) :
  flag_no_price (transform_row r) && flag_suspicious_price (transform_row r) = false /\
  (quality_flag_count (transform_row r) <= 4)%Z /\
  quality_flag_count (transform_row row_four_flags) = 4%Z.
Proof.
  split; [|split; [|reflexivity]].
  - unfold transform_row, enrich, price_suspicious.
    cbn [flag_no_price flag_suspicious_price standardize avg_beverage_price].
    destruct (avg_beverage_price r); reflexivity.
  - unfold transform_row, enrich. cbn [quality_flag_count].
    apply sum_of_five_exclusive. unfold price_suspicious.
    cbn [standardize avg_beverage_price].
    destruct (avg_beverage_price r); reflexivity.
Qed.

(** ** Quality score *)

Lemma Q2R_positive (g : Q) : 1 <= g -> (0 < Q2R g)%R.
Proof.
  intros H. apply Qle_Rle in H. rewrite RMicromega.Q2R_1 in H. Lra.lra.
Qed.

Lemma ln_of_count (n : Z) :
  (0 <= n)%Z -> (0 <= ln (IZR (n + 1)))%R /\ (ln (IZR (n + 1)) = 0%R <-> n = 0%Z).
Proof.
  intros Hn. destruct (Z.eq_dec n 0) as [-> | Hne].
  - cbn. rewrite ln_1. split; [Lra.lra | tauto].
  - assert (Hgt : (1 < IZR (n + 1))%R) by (apply (IZR_lt 1); lia).
    assert (Hpos : (0 < ln (IZR (n + 1)))%R).
    { rewrite <- ln_1. apply ln_increasing; [Lra.lra | exact Hgt]. }
    split; [Lra.lra|]. split; [intros H; Lra.lra | intros H; contradiction].
Qed.

(** X9: the quality score of a row is non-null exactly when its raw rating
    lies within [1.0, 5.0] and its raw review count is non-negative; a score
    is never negative, and it is 0 exactly for a cafe with no review. *)
Theorem quality_score_defined_and_sign (r : raw_row) :
  (quality_score (transform_row r) <> None <->
   exists (g : Q) (n : Z),
     google_rating r = Some g /\ (1 <= g /\ g <= 5) /\
     review_count r = Some n /\ (0 <= n)%Z) /\
  (forall x : R, quality_score (transform_row r) = Some x ->
     (0 <= x)%R /\ (x = 0%R <-> review_count r = Some 0%Z)).
Proof.
  unfold transform_row, enrich. cbn [quality_score].
  rewrite standardized_rating, standardized_reviews.
  destruct (google_rating r) as [g|] eqn:Hg.
  2: { replace (if invalid_rating r then None else None) with (@None Q)
         by (destruct (invalid_rating r); reflexivity).
       cbn [score]. split.
       - split; [intros H; contradiction | intros (? & ? & H & _); discriminate].
       - discriminate. }
  destruct (invalid_rating r) eqn:Hinv.
  { cbn [score]. split.
    - split; [intros H; contradiction|].
      intros (g' & n & [= <-] & [H1 H5] & _). exfalso.
      unfold invalid_rating in Hinv. rewrite Hg in Hinv. cbn [Pd.lt Pd.gt] in Hinv.
      apply orb_true_iff in Hinv. rewrite !Qlt_bool_true in Hinv. lra.
    - discriminate. }
  destruct (invalid_rating_false r g Hg Hinv) as [H1 H5].
  destruct (review_count r) as [n|]; cbn [score].
  2: { split.
       - split; [intros H; contradiction | intros (? & ? & _ & _ & H & _); discriminate].
       - discriminate. }
  destruct (n <? 0)%Z eqn:En.
  { split.
    - split; [intros H; contradiction|].
      intros (? & n' & _ & _ & [= <-] & Hn). apply Z.ltb_lt in En. lia.
    - discriminate. }
  apply Z.ltb_ge in En. unfold np_log.
  assert (Hpos : (0 <? n + 1)%Z = true) by (apply Z.ltb_lt; lia).
  rewrite Hpos. split.
  - split; [|discriminate]. intros _. exists g, n. auto.
  - intros x [= <-]. destruct (ln_of_count n En) as [Hln Hzero].
    pose proof (Q2R_positive g H1) as Hgpos. split.
    + apply Rmult_le_pos; [Lra.lra | exact Hln].
    + split.
      * intros H. apply Rmult_integral in H. destruct H as [H | H]; [Lra.lra|].
        apply Hzero in H. subst n. reflexivity.
      * intros [= ->]. cbn. rewrite ln_1. apply Rmult_0_r.
Qed.

(** ** Row order *)

Lemma filter_permutation {A : Type} (f : A -> bool) (l l' : list A) :
  Permutation l l' -> Permutation (filter f l) (filter f l').
Proof.
  induction 1 as [| a l l' _ IH | a b l | l l' l'' _ IH1 _ IH2]; cbn [filter].
  - constructor.
  - destruct (f a); [constructor|]; exact IH.
  - destruct (f a), (f b); try apply Permutation_refl; apply perm_swap.
  - exact (Permutation_trans IH1 IH2).
Qed.

Lemma bool_same (a b : bool) : (a = false <-> b = false) -> a = b.
Proof. destruct a, b; intros [H1 H2]; auto; try (symmetry; auto). Qed.

(** X10: the verdict of the validation does not depend on the order of the
    raw rows: a permuted table fails the same fatal checks, has the same
    warning total, and is transformed into the same rows, permuted. *)
Theorem validation_ignores_row_order (a b : list raw_row) :
  Permutation a b ->
  fatal_missing a = fatal_missing b /\
  fatal_duplicates a = fatal_duplicates b /\
  validation_warnings a = validation_warnings b /\
  Permutation (transform a) (transform b).
Proof.
  intros H. split; [|split; [|split]].
  - apply bool_same. rewrite !no_missing_required. split; intros Hall r Hr; apply Hall.
    + apply (Permutation_in r (Permutation_sym H)). exact Hr.
    + apply (Permutation_in r H). exact Hr.
  - apply bool_same. rewrite !no_duplicates_NoDup.
    pose proof (Permutation_map cafe_id H) as Hids. split; intros Hnd.
    + exact (Permutation_NoDup Hids Hnd).
    + exact (Permutation_NoDup (Permutation_sym Hids) Hnd).
  - rewrite !validation_warnings_total.
    rewrite (Permutation_length (filter_permutation location_warnings _ _ H)).
    rewrite (Permutation_length (filter_permutation price_warnings _ _ H)).
    rewrite (Permutation_length (filter_permutation rating_warnings _ _ H)).
    reflexivity.
  - apply Permutation_map. exact H.
Qed.

Lemma validation_ignores_row_order_witness :
  fatal_missing sample_table = fatal_missing (List.rev sample_table) /\
  fatal_duplicates sample_table = fatal_duplicates (List.rev sample_table) /\
  validation_warnings sample_table = validation_warnings (List.rev sample_table) /\
  Permutation (transform sample_table) (transform (List.rev sample_table)).
Proof.
  apply validation_ignores_row_order. apply Permutation_rev.
Defined.

(** ** Standardized text *)

Lemma lower_char_idempotent (c : ascii) : Pd.lower_char (Pd.lower_char c) = Pd.lower_char c.
Proof. destruct c as [[] [] [] [] [] [] [] []]; reflexivity. Qed.

Lemma upper_char_idempotent (c : ascii) : Pd.upper_char (Pd.upper_char c) = Pd.upper_char c.
Proof. destruct c as [[] [] [] [] [] [] [] []]; reflexivity. Qed.

Lemma lower_char_not_upper (c : ascii) : Pd.is_upper (Pd.lower_char c) = false.
Proof. destruct c as [[] [] [] [] [] [] [] []]; reflexivity. Qed.

Lemma lower_char_space (c : ascii) : Pd.is_space (Pd.lower_char c) = Pd.is_space c.
Proof. destruct c as [[] [] [] [] [] [] [] []]; reflexivity. Qed.

Lemma upper_char_space (c : ascii) : Pd.is_space (Pd.upper_char c) = Pd.is_space c.
Proof. destruct c as [[] [] [] [] [] [] [] []]; reflexivity. Qed.

Lemma lower_char_cased (c : ascii) :
  Pd.is_upper (Pd.lower_char c) || Pd.is_lower (Pd.lower_char c) =
  Pd.is_upper c || Pd.is_lower c.
Proof. destruct c as [[] [] [] [] [] [] [] []]; reflexivity. Qed.

Lemma upper_char_cased (c : ascii) :
  Pd.is_upper (Pd.upper_char c) || Pd.is_lower (Pd.upper_char c) =
  Pd.is_upper c || Pd.is_lower c.
Proof. destruct c as [[] [] [] [] [] [] [] []]; reflexivity. Qed.

Lemma lower_idempotent (s : string) : Pd.lower (Pd.lower s) = Pd.lower s.
Proof.
  induction s as [|c s IH]; [reflexivity|].
  cbn [Pd.lower]. rewrite lower_char_idempotent, IH. reflexivity.
Qed.

Lemma lower_no_upper (s : string) : no_upper (Pd.lower s).
Proof.
  unfold no_upper. induction s as [|c s IH]; cbn [Pd.lower list_ascii_of_string].
  - constructor.
  - constructor; [apply lower_char_not_upper | exact IH].
Qed.

Lemma spaces_lower (s : string) : spaces (Pd.lower s) = spaces s.
Proof.
  unfold spaces. induction s as [|c s IH]; [reflexivity|].
  cbn [Pd.lower list_ascii_of_string map]. rewrite lower_char_space, IH. reflexivity.
Qed.

Lemma spaces_title_from (b : bool) (s : string) : spaces (Pd.title_from b s) = spaces s.
Proof.
  unfold spaces. revert b. induction s as [|c s IH]; intros b; [reflexivity|].
  cbn [Pd.title_from list_ascii_of_string map]. rewrite IH. f_equal.
  destruct (Pd.is_upper c || Pd.is_lower c); [|reflexivity].
  destruct b; [apply lower_char_space | apply upper_char_space].
Qed.

Lemma title_from_idempotent (b : bool) (s : string) :
  Pd.title_from b (Pd.title_from b s) = Pd.title_from b s.
Proof.
  revert b. induction s as [|c s IH]; intros b; [reflexivity|].
  cbn [Pd.title_from].
  destruct (Pd.is_upper c || Pd.is_lower c) eqn:E.
  - destruct b.
    + rewrite lower_char_cased, E, lower_char_idempotent, IH. reflexivity.
    + rewrite upper_char_cased, E, upper_char_idempotent, IH. reflexivity.
  - rewrite E, IH. reflexivity.
Qed.

Lemma spaces_reverse (s : string) : spaces (Pd.reverse s) = List.rev (spaces s).
Proof.
  unfold spaces, Pd.reverse. rewrite list_ascii_of_string_of_list_ascii. apply map_rev.
Qed.

Lemma reverse_involutive (s : string) : Pd.reverse (Pd.reverse s) = s.
Proof.
  unfold Pd.reverse. rewrite list_ascii_of_string_of_list_ascii, rev_involutive.
  apply string_of_list_ascii_of_string.
Qed.

Lemma hd_rev {A : Type} (l : list A) (d : A) : hd d (List.rev l) = last l d.
Proof.
  induction l as [|a l IH] using rev_ind; [reflexivity|].
  rewrite rev_unit, last_last. reflexivity.
Qed.

Lemma last_rev {A : Type} (l : list A) (d : A) : last (List.rev l) d = hd d l.
Proof.
  rewrite <- (rev_involutive l) at 2. rewrite hd_rev. reflexivity.
Qed.

Lemma lstrip_starts_clean (s : string) : hd false (spaces (Pd.lstrip s)) = false.
Proof.
  induction s as [|c s IH]; [reflexivity|].
  cbn [Pd.lstrip]. destruct (Pd.is_space c) eqn:E; [exact IH|].
  unfold spaces. cbn. exact E.
Qed.

Lemma lstrip_fixed (s : string) : hd false (spaces s) = false -> Pd.lstrip s = s.
Proof.
  destruct s as [|c s]; [reflexivity|].
  unfold spaces. cbn. intros ->. reflexivity.
Qed.

Lemma lstrip_keeps_end (s : string) :
  last (spaces s) false = false -> last (spaces (Pd.lstrip s)) false = false.
Proof.
  induction s as [|c s IH]; [reflexivity|].
  cbn [Pd.lstrip]. destruct (Pd.is_space c) eqn:E; [|tauto].
  intros H. apply IH. destruct s as [|c' s]; [|exact H].
  unfold spaces in H. cbn in H. congruence.
Qed.

Lemma strip_trimmed (s : string) : trimmed (Pd.strip s).
Proof.
  unfold trimmed, Pd.strip. rewrite spaces_reverse, hd_rev, last_rev. split.
  - apply lstrip_keeps_end. rewrite spaces_reverse, last_rev. apply lstrip_starts_clean.
  - apply lstrip_starts_clean.
Qed.

Lemma strip_fixed (s : string) : trimmed s -> Pd.strip s = s.
Proof.
  intros [Hs He]. unfold Pd.strip. rewrite (lstrip_fixed s Hs).
  rewrite lstrip_fixed; [apply reverse_involutive|].
  rewrite spaces_reverse, hd_rev. exact He.
Qed.

Lemma lower_strip_fixed (s : string) :
  Pd.lower (Pd.strip (Pd.lower (Pd.strip s))) = Pd.lower (Pd.strip s).
Proof.
  rewrite (strip_fixed (Pd.lower (Pd.strip s))); [apply lower_idempotent|].
  unfold trimmed. rewrite spaces_lower. apply strip_trimmed.
Qed.

Lemma title_strip_fixed (s : string) :
  Pd.title (Pd.strip (Pd.title (Pd.strip s))) = Pd.title (Pd.strip s).
Proof.
  rewrite (strip_fixed (Pd.title (Pd.strip s))); [apply title_from_idempotent|].
  unfold trimmed, Pd.title. rewrite spaces_title_from. apply strip_trimmed.
Qed.

Lemma standardize_twice (r : raw_row) : standardize (standardize r) = standardize r.
Proof.
  unfold standardize. cbn [cafe_id name neighborhood cafe_type ownership latitude longitude
                           avg_beverage_price google_rating review_count other].
  f_equal.
  - destruct (neighborhood r); cbn [option_map]; [rewrite title_strip_fixed|]; reflexivity.
  - destruct (cafe_type r); cbn [option_map]; [rewrite lower_strip_fixed|]; reflexivity.
  - destruct (ownership r); cbn [option_map]; [rewrite lower_strip_fixed|]; reflexivity.
  - unfold invalid_rating at 1. cbn [google_rating].
    destruct (invalid_rating r) eqn:E; [reflexivity|].
    unfold invalid_rating in E. rewrite E. reflexivity.
  - destruct (review_count r) as [n|]; cbn [Pd.ltz]; [|reflexivity].
    destruct (n <? 0)%Z eqn:E; cbn [Pd.ltz]; [reflexivity|]. rewrite E. reflexivity.
Qed.

(** The string methods keep ASCII text ASCII. *)
Lemma lower_char_ascii (c : ascii) : ascii_char (Pd.lower_char c) = ascii_char c.
Proof. destruct c as [[] [] [] [] [] [] [] []]; reflexivity. Qed.

Lemma upper_char_ascii (c : ascii) : ascii_char (Pd.upper_char c) = ascii_char c.
Proof. destruct c as [[] [] [] [] [] [] [] []]; reflexivity. Qed.

Lemma lower_ascii (s : string) : ascii_text s -> ascii_text (Pd.lower s).
Proof.
  unfold ascii_text. induction s as [|c s IH]; cbn [Pd.lower list_ascii_of_string]; intros H.
  - constructor.
  - inversion H as [|? ? Hc Hs]; subst.
    constructor; [rewrite lower_char_ascii; exact Hc | apply IH; exact Hs].
Qed.

Lemma title_from_ascii (b : bool) (s : string) : ascii_text s -> ascii_text (Pd.title_from b s).
Proof.
  unfold ascii_text. revert b.
  induction s as [|c s IH]; intros b H; cbn [Pd.title_from list_ascii_of_string].
  - constructor.
  - inversion H as [|? ? Hc Hs]; subst. constructor; [|apply IH; exact Hs].
    destruct (Pd.is_upper c || Pd.is_lower c); [|exact Hc].
    destruct b; [rewrite lower_char_ascii | rewrite upper_char_ascii]; exact Hc.
Qed.

Lemma lstrip_ascii (s : string) : ascii_text s -> ascii_text (Pd.lstrip s).
Proof.
  unfold ascii_text. induction s as [|c s IH]; cbn [Pd.lstrip]; intros H; [exact H|].
  destruct (Pd.is_space c); [|exact H].
  apply IH. cbn [list_ascii_of_string] in H. inversion H; assumption.
Qed.

Lemma reverse_ascii (s : string) : ascii_text s -> ascii_text (Pd.reverse s).
Proof.
  unfold ascii_text, Pd.reverse. rewrite list_ascii_of_string_of_list_ascii.
  apply Forall_rev.
Qed.

Lemma strip_ascii (s : string) : ascii_text s -> ascii_text (Pd.strip s).
Proof.
  intros H. unfold Pd.strip.
  apply reverse_ascii, lstrip_ascii, reverse_ascii, lstrip_ascii. exact H.
Qed.

Lemma standardize_ascii (r : raw_row) : ascii_row r -> ascii_row (standardize r).
Proof.
  unfold ascii_row, ascii_entry. intros (Hn & Ht & Ho).
  cbn [standardize neighborhood cafe_type ownership]. split; [|split].
  - destruct (neighborhood r) as [x|]; cbn [option_map]; [|discriminate].
    intros s [= <-]. apply title_from_ascii, strip_ascii, Hn. reflexivity.
  - destruct (cafe_type r) as [x|]; cbn [option_map]; [|discriminate].
    intros s [= <-]. apply lower_ascii, strip_ascii, Ht. reflexivity.
  - destruct (ownership r) as [x|]; cbn [option_map]; [|discriminate].
    intros s [= <-]. apply lower_ascii, strip_ascii, Ho. reflexivity.
Qed.

Lemma row_untidy_text_ascii : ascii_row row_untidy_text.
Proof.
  unfold ascii_row, ascii_entry. cbn [row_untidy_text neighborhood cafe_type ownership].
  split; [|split]; intros s [= <-]; unfold ascii_text; cbn [list_ascii_of_string];
    repeat constructor.
Qed.

(** X4: on a row of ASCII text the standardization is idempotent: what it
    gives is a row of ASCII text again, run on that row it changes nothing,
    and enriching that row gives the same enriched row, flags and tier
    included. *)
Theorem standardize_idempotent (r : raw_row) :
  ascii_row r ->
  ascii_row (standardize r) /\
  standardize (standardize r) = standardize r /\
  transform_row (standardize r) = transform_row r.
Proof.
  intros Hascii. split; [apply standardize_ascii; exact Hascii|].
  split; [apply standardize_twice|].
  unfold transform_row. rewrite standardize_twice. unfold enrich.
  assert (Hout : out_of_bounds (standardize r) = out_of_bounds r) by reflexivity.
  assert (Hprice : price_suspicious (standardize r) = price_suspicious r) by reflexivity.
  rewrite Hout, Hprice. reflexivity.
Qed.

Lemma standardize_idempotent_witness :
  neighborhood (standardize row_untidy_text) = Some "Old Strathcona" /\
  standardize (standardize row_untidy_text) = standardize row_untidy_text /\
  transform_row (standardize row_untidy_text) = transform_row row_untidy_text.
Proof.
  split; [reflexivity|].
  exact (proj2 (standardize_idempotent row_untidy_text row_untidy_text_ascii)).
Defined.

(** X5: on a row of ASCII text, after the standardization a cafe type and
    an ownership are ASCII text that neither begins nor ends with whitespace
    and holds no capital letter; a neighborhood is ASCII text that neither
    begins nor ends with whitespace and is in title case already. *)
Theorem standardized_text (r : raw_row) :
  ascii_row r ->
  (forall s, cafe_type (row (transform_row r)) = Some s ->
             ascii_text s /\ trimmed s /\ no_upper s) /\
  (forall s, ownership (row (transform_row r)) = Some s ->
             ascii_text s /\ trimmed s /\ no_upper s) /\
  (forall s, neighborhood (row (transform_row r)) = Some s ->
             ascii_text s /\ trimmed s /\ Pd.title s = s).
Proof.
  intros Hascii. destruct (standardize_ascii r Hascii) as (An & At & Ao).
  unfold transform_row, enrich. cbn [row].
  split; [|split]; intros s Hs.
  - split; [exact (At s Hs)|]. revert Hs. cbn [standardize cafe_type].
    destruct (cafe_type r) as [t|]; cbn [option_map]; [|discriminate].
    intros [= <-]. split; [|apply lower_no_upper].
    unfold trimmed. rewrite spaces_lower. apply strip_trimmed.
  - split; [exact (Ao s Hs)|]. revert Hs. cbn [standardize ownership].
    destruct (ownership r) as [t|]; cbn [option_map]; [|discriminate].
    intros [= <-]. split; [|apply lower_no_upper].
    unfold trimmed. rewrite spaces_lower. apply strip_trimmed.
  - split; [exact (An s Hs)|]. revert Hs. cbn [standardize neighborhood].
    destruct (neighborhood r) as [t|]; cbn [option_map]; [|discriminate].
    intros [= <-]. split; [|apply title_from_idempotent].
    unfold trimmed, Pd.title. rewrite spaces_title_from. apply strip_trimmed.
Qed.

Lemma standardized_text_witness :
  cafe_type (row (transform_row row_untidy_text)) = Some "coffee_shop" /\
  ownership (row (transform_row row_untidy_text)) = Some "small_chain" /\
  neighborhood (row (transform_row row_untidy_text)) = Some "Old Strathcona" /\
  (trimmed "coffee_shop" /\ no_upper "coffee_shop") /\
  (trimmed "small_chain" /\ no_upper "small_chain") /\
  (trimmed "Old Strathcona" /\ Pd.title "Old Strathcona" = "Old Strathcona").
Proof.
  destruct (standardized_text row_untidy_text row_untidy_text_ascii) as (Ht & Ho & Hn).
  split; [reflexivity|]. split; [reflexivity|]. split; [reflexivity|].
  split; [exact (proj2 (Ht "coffee_shop" eq_refl))|].
  split; [exact (proj2 (Ho "small_chain" eq_refl)) | exact (proj2 (Hn "Old Strathcona" eq_refl))].
Defined.

(** * Properties of the reports and of the generator *)

(** ** The reports' own Square One test *)

Lemma search_pattern_case (pat pat' s : string) :
  Pd.lower pat = Pd.lower pat' -> Pd.search pat s = Pd.search pat' s.
Proof.
  intros H. destruct (Pd.search pat s) eqn:E.
  - symmetry. apply search_spec. rewrite <- H. apply search_spec. exact E.
  - destruct (Pd.search pat' s) eqn:E'; [|reflexivity].
    apply search_spec in E'. rewrite <- H in E'. apply search_spec in E'. congruence.
Qed.

Lemma report_is_soc_of_row (r : raw_row) :
  report_is_soc (to_record (transform_row r)) = is_soc (transform_row r).
Proof.
  unfold report_is_soc, transform_row, enrich, to_record.
  cbn [row is_soc standardize name app Pd.get String.eqb Ascii.eqb Bool.eqb].
  destruct (name r) as [n|]; cbn [Pd.of_option Pd.str_contains_nocase]; [|reflexivity].
  apply search_pattern_case. reflexivity.
Qed.

(** X11: the reports recompute the Square One test on the rows of
    [cafes_complete] with the pattern 'Square One'; it agrees with the
    ferry's [is_soc] on every row, so splitting [cafes_complete] by it and
    dropping [is_soc] gives back the [soc_locations] and [competitors]
    tables, row for row, and rap-1's [business_type] is 'Square One Coffee'
    exactly on the rows of [soc_locations]. *)
Theorem reports_split_matches_ferry (ds_raw : list raw_row) :
  (forall r, In r ds_raw ->
     report_is_soc (to_record (transform_row r)) = is_soc (transform_row r) /\
     (business_type (to_record (transform_row r)) = "Square One Coffee" <->
      is_soc (transform_row r) = true)) /\
  Pd.drop "is_soc" (filter report_is_soc (cafes_complete (transform ds_raw))) =
    soc_locations (transform ds_raw) /\
  Pd.drop "is_soc"
    (filter (fun t => negb (report_is_soc t)) (cafes_complete (transform ds_raw))) =
    competitors (transform ds_raw).
Proof.
  split; [|split].
  - intros r _. split; [apply report_is_soc_of_row|].
    unfold business_type. rewrite report_is_soc_of_row.
    destruct (is_soc (transform_row r)); split; intros H; try reflexivity; discriminate.
  - unfold cafes_complete, soc_locations, transform. rewrite filter_map_swap. do 2 f_equal.
    apply filter_ext_in. intros e He. apply in_map_iff in He. destruct He as [r [<- _]].
    apply report_is_soc_of_row.
  - unfold cafes_complete, competitors, transform. rewrite filter_map_swap. do 2 f_equal.
    apply filter_ext_in. intros e He. apply in_map_iff in He. destruct He as [r [<- _]].
    rewrite report_is_soc_of_row. reflexivity.
Qed.

(** ** The generator's names *)

Lemma lower_append (a b : string) : Pd.lower (a ++ b) = (Pd.lower a ++ Pd.lower b)%string.
Proof.
  induction a as [|c a IH]; [reflexivity|].
  cbn [append Pd.lower]. rewrite IH. reflexivity.
Qed.

Lemma prefix_split (pat s : string) :
  String.prefix pat s = true -> exists suf, s = (pat ++ suf)%string.
Proof.
  revert s. induction pat as [|p pat IH]; intros s.
  - intros _. exists s. reflexivity.
  - destruct s as [|c s]; cbn [String.prefix]; [discriminate|].
    destruct (ascii_dec p c) as [-> | _]; [|discriminate].
    intros H. destruct (IH s H) as [suf ->]. exists suf. reflexivity.
Qed.

Lemma contains_split (pat s : string) :
  Generator.contains pat s = true -> exists pre suf, s = (pre ++ pat ++ suf)%string.
Proof.
  induction s as [|c s IH]; cbn [Generator.contains]; rewrite orb_true_iff.
  - intros [H | H]; [|discriminate]. apply prefix_split in H. destruct H as [suf H].
    exists "", suf. exact H.
  - intros [H | H].
    + apply prefix_split in H. destruct H as [suf H]. exists "", suf. exact H.
    + destruct (IH H) as (pre & suf & ->). exists (String c pre), suf. reflexivity.
Qed.

Lemma contains_then_search (pat s : string) :
  Generator.contains pat s = true -> Pd.search pat s = true.
Proof.
  intros H. destruct (contains_split pat s H) as (pre & suf & ->).
  apply search_spec. exists (Pd.lower pre), (Pd.lower suf).
  rewrite !lower_append. reflexivity.
Qed.

Lemma competitor_name_not_soc (d : Generator.name_draw) :
  Generator.valid_name_draw d ->
  Generator.contains "Square One" (Generator.competitor_name d) = false /\
  Pd.search "square one" (Generator.competitor_name d) = false.
Proof.
  destruct d as [sh p m x]. unfold Generator.valid_name_draw, Generator.competitor_name.
  cbn [Generator.short Generator.prefix Generator.middle Generator.suffix].
  unfold Generator.prefixes, Generator.middles, Generator.suffixes.
  intros (Hp & Hm & Hx). cbn [In] in Hp, Hm, Hx. destruct sh.
  - clear Hx. in_cases Hp; in_cases Hm; subst; split; reflexivity.
  - in_cases Hp; in_cases Hm; in_cases Hx; subst; split; reflexivity.
Qed.

(** X12: the generator marks a cafe as Square One with the case-sensitive
    test ['Square One' in name]; whatever name passes it also passes the
    ferry's case-insensitive test, the six Square One names pass both, and
    no competitor name the generator can compose passes either. *)
Theorem generator_and_ferry_agree_on_names :
  (forall n : string,
     Generator.contains "Square One" n = true -> Pd.search "square one" n = true) /\
  (forall n : string, In n Generator.soc_locations ->
     Generator.contains "Square One" n = true /\ Pd.search "square one" n = true) /\
  (forall d : Generator.name_draw, Generator.valid_name_draw d ->
     Generator.contains "Square One" (Generator.competitor_name d) = false /\
     Pd.search "square one" (Generator.competitor_name d) = false).
Proof.
  split; [|split].
  - intros n H. apply contains_then_search in H.
    rewrite <- (search_pattern_case "Square One" "square one" n eq_refl). exact H.
  - intros n Hn. unfold Generator.soc_locations in Hn. cbn [In] in Hn.
    in_cases Hn; subst; split; reflexivity.
  - apply competitor_name_not_soc.
Qed.

(** ** A generated table through the ferry *)

Lemma generated_neighborhood_fixed (i : nat) :
  let n := nth (i mod List.length Generator.neighborhoods) Generator.neighborhoods "" in
  In n Generator.neighborhoods /\ Pd.title (Pd.strip n) = n.
Proof.
  cbv zeta. cbn [Generator.neighborhoods List.length].
  assert (H : (i mod 15 < 15)%nat) by (apply Nat.mod_upper_bound; discriminate).
  revert H. generalize (i mod 15)%nat. intros k Hk.
  do 15 (destruct k as [|k]; [split; [cbn; tauto | reflexivity]|]). lia.
Qed.

Lemma generated_kind_fixed (b : bool) (d : Generator.row_draw) :
  Generator.valid_row_draw b d ->
  Pd.lower (Pd.strip (if b then "specialty_coffee" else Generator.cafe_type_draw d)) =
    (if b then "specialty_coffee" else Generator.cafe_type_draw d) /\
  Pd.lower (Pd.strip (if b then "independent" else Generator.ownership_draw d)) =
    (if b then "independent" else Generator.ownership_draw d).
Proof.
  unfold Generator.valid_row_draw. destruct b; [split; reflexivity|].
  intros ((Ht & Ho & _) & _).
  unfold Generator.cafe_types, Generator.ownerships in Ht, Ho. cbn [In] in Ht, Ho.
  split; [in_cases Ht; rewrite <- Ht | in_cases Ho; rewrite <- Ho]; reflexivity.
Qed.

Lemma generated_numbers (b : bool) (d : Generator.row_draw) :
  Generator.valid_row_draw b d ->
  (EDMONTON_lat_min <= Generator.latitude_draw d /\
   Generator.latitude_draw d <= EDMONTON_lat_max) /\
  (EDMONTON_lng_min <= Generator.longitude_draw d /\
   Generator.longitude_draw d <= EDMONTON_lng_max) /\
  (3 <= Generator.price_draw d /\ Generator.price_draw d <= 15 # 2) /\
  (1 <= Generator.rating_draw d /\ Generator.rating_draw d <= 5) /\
  (0 <= Generator.reviews_draw d)%Z.
Proof.
  unfold Generator.valid_row_draw, Generator.lat_min, Generator.lat_max,
    Generator.lng_min, Generator.lng_max, Generator.rating_4_3, Generator.rating_4_8,
    Generator.rating_4_9, EDMONTON_lat_min, EDMONTON_lat_max, EDMONTON_lng_min,
    EDMONTON_lng_max.
  intros (Hb & [Hl1 Hl2] & [Hg1 Hg2]).
  split; [split; lra|]. split; [split; lra|].
  destruct b.
  - destruct Hb as ([H1 H2] & [H3 H4] & H5). repeat split; try lra; lia.
  - destruct Hb as (_ & _ & [H1 H2] & [H3 H4] & H5). repeat split; try lra; lia.
Qed.

(** One generated row in the ferry: nothing to standardize, no warning, no
    flag. *)
Lemma generated_row_clean (id : Z) (i : nat) (n : string) (d : Generator.row_draw) :
  Generator.valid_row_draw (Generator.contains "Square One" n) d ->
  let r := Generator.row id i n d in
  standardize r = r /\
  missing_required r = false /\
  (location_warnings r = false /\ price_warnings r = false /\ rating_warnings r = false) /\
  quality_flag_count (transform_row r) = 0%Z /\
  quality_tier (transform_row r) = Some "excellent" /\
  price_category (transform_row r) <> None /\
  is_soc (transform_row r) = Pd.search "square one" n.
Proof.
  intros Hv. cbv zeta.
  destruct (generated_numbers _ d Hv)
    as ([La Lb] & [Ga Gb] & [Pa Pb] & [Ra Rb] & Hn).
  destruct (generated_kind_fixed _ d Hv) as [Ht Ho].
  destruct (generated_neighborhood_fixed i) as [_ Hnb].
  assert (Hlat : Pd.Qlt_bool (Generator.latitude_draw d) EDMONTON_lat_min = false)
    by (apply Qlt_bool_false; exact La).
  assert (Hlat' : Pd.Qlt_bool EDMONTON_lat_max (Generator.latitude_draw d) = false)
    by (apply Qlt_bool_false; exact Lb).
  assert (Hlng : Pd.Qlt_bool (Generator.longitude_draw d) EDMONTON_lng_min = false)
    by (apply Qlt_bool_false; exact Ga).
  assert (Hlng' : Pd.Qlt_bool EDMONTON_lng_max (Generator.longitude_draw d) = false)
    by (apply Qlt_bool_false; exact Gb).
  assert (Hp : Pd.Qlt_bool (Generator.price_draw d) PRICE_RANGE_min = false)
    by (apply Qlt_bool_false; unfold PRICE_RANGE_min; lra).
  assert (Hp' : Pd.Qlt_bool PRICE_RANGE_max (Generator.price_draw d) = false)
    by (apply Qlt_bool_false; unfold PRICE_RANGE_max; lra).
  assert (Hr : Pd.Qlt_bool (Generator.rating_draw d) 1 = false)
    by (apply Qlt_bool_false; exact Ra).
  assert (Hr' : Pd.Qlt_bool 5 (Generator.rating_draw d) = false)
    by (apply Qlt_bool_false; exact Rb).
  assert (Hrev : (Generator.reviews_draw d <? 0)%Z = false) by (apply Z.ltb_ge; exact Hn).
  assert (Hinv : invalid_rating (Generator.row id i n d) = false).
  { unfold invalid_rating, Generator.row. cbn [google_rating Pd.lt Pd.gt].
    rewrite Hr, Hr'. reflexivity. }
  assert (Hout : out_of_bounds (Generator.row id i n d) = false).
  { unfold out_of_bounds, Generator.row. cbn [latitude longitude Pd.lt Pd.gt].
    rewrite Hlat, Hlat', Hlng, Hlng'. reflexivity. }
  assert (Hsus : price_suspicious (Generator.row id i n d) = false).
  { unfold price_suspicious, Generator.row. cbn [avg_beverage_price Pd.lt Pd.gt].
    rewrite Hp, Hp'. reflexivity. }
  split; [|split; [|split; [|split; [|split; [|split]]]]].
  - unfold standardize. rewrite Hinv.
    unfold Generator.row at 1 2 3 4 5 6 7 8 9 10 11 12.
    cbn [cafe_id name neighborhood cafe_type ownership latitude longitude
         avg_beverage_price google_rating review_count other option_map Pd.ltz].
    rewrite Hrev, Hnb, Ht, Ho. reflexivity.
  - reflexivity.
  - unfold location_warnings, price_warnings, rating_warnings.
    rewrite Hout, Hsus, Hinv, !andb_false_r. auto.
  - unfold transform_row, enrich. cbn [quality_flag_count].
    rewrite Hout, Hsus. rewrite standardized_rating, Hinv. reflexivity.
  - unfold transform_row, enrich. cbn [quality_tier].
    rewrite Hout, Hsus. rewrite standardized_rating, Hinv. reflexivity.
  - unfold transform_row, enrich. cbn [price_category standardize avg_beverage_price].
    unfold Generator.row. cbn [avg_beverage_price].
    unfold Pd.cut, price_bins, price_labels.
    cbn [Pd.searchsorted_left Pd.edge_lt List.length].
    split_comparisons; cbn; try discriminate; exfalso; lra.
  - reflexivity.
Qed.

Lemma rows_from_ids (id : Z) (i : nat) (names : list string) (draws : list Generator.row_draw) :
  forall x, In x (map cafe_id (Generator.rows_from id i names draws)) ->
            exists z, x = Some z /\ (id <= z)%Z.
Proof.
  revert id i draws. induction names as [|n names IH]; intros id i [|d draws] x;
    cbn [Generator.rows_from map In]; try contradiction.
  intros [<- | H].
  - exists id. split; [reflexivity | lia].
  - destruct (IH _ _ _ _ H) as (z & -> & Hz). exists z. split; [reflexivity | lia].
Qed.

Lemma rows_from_NoDup (id : Z) (i : nat) (names : list string) (draws : list Generator.row_draw) :
  NoDup (map cafe_id (Generator.rows_from id i names draws)).
Proof.
  revert id i draws. induction names as [|n names IH]; intros id i [|d draws];
    cbn [Generator.rows_from map]; try constructor.
  - intros H. apply rows_from_ids in H. destruct H as (z & [= <-] & Hz). lia.
  - apply IH.
Qed.

Lemma rows_from_numbers (id : Z) (i : nat) (names : list string) (draws : list Generator.row_draw) :
  forall r, In r (Generator.rows_from id i names draws) ->
            avg_beverage_price r <> None /\ review_count r <> None.
Proof.
  revert id i draws. induction names as [|n names IH]; intros id i [|d draws] r;
    cbn [Generator.rows_from In]; try contradiction.
  intros [<- | H]; [split; discriminate | exact (IH _ _ _ _ H)].
Qed.

Lemma rows_from_clean (id : Z) (i : nat) (names : list string) (draws : list Generator.row_draw) :
  Forall2 (fun n d => Generator.valid_row_draw (Generator.contains "Square One" n) d)
          names draws ->
  List.length (Generator.rows_from id i names draws) = List.length names /\
  (forall r, In r (Generator.rows_from id i names draws) ->
     standardize r = r /\
     missing_required r = false /\
     (location_warnings r = false /\ price_warnings r = false /\ rating_warnings r = false) /\
     quality_flag_count (transform_row r) = 0%Z /\
     quality_tier (transform_row r) = Some "excellent" /\
     price_category (transform_row r) <> None) /\
  List.length (filter is_soc (transform (Generator.rows_from id i names draws))) =
  List.length (filter (Pd.search "square one") names).
Proof.
  intros H. revert id i. induction H as [|n d names draws Hv _ IH]; intros id i.
  - cbn. split; [reflexivity|]. split; [intros r []|reflexivity].
  - cbn [Generator.rows_from List.length transform map filter In].
    destruct (IH (id + 1)%Z (S i)) as (Hlen & Hall & Hsoc).
    destruct (generated_row_clean id i n d Hv) as (H1 & H2 & H3 & H4 & H5 & H6 & H7).
    split; [rewrite Hlen; reflexivity|]. split.
    + intros r [<- | Hr]; [|apply Hall; exact Hr]. repeat split; try assumption; apply H3.
    + rewrite H7. fold (transform (Generator.rows_from (id + 1) (S i) names draws)).
      destruct (Pd.search "square one" n); cbn [List.length]; rewrite Hsoc; reflexivity.
Qed.

Lemma competitor_names_filtered (name_draws : list Generator.name_draw) :
  Forall Generator.valid_name_draw name_draws ->
  filter (Pd.search "square one") (map Generator.competitor_name name_draws) = [].
Proof.
  induction 1 as [|d l Hd _ IH]; [reflexivity|].
  cbn [map filter]. destruct (competitor_name_not_soc d Hd) as [_ ->]. exact IH.
Qed.

(** X13: a table the generator writes on a fresh database goes through the
    ferry untouched by any check: it has 30 rows, passes both fatal checks,
    raises no warning, needs no standardization, and every row ends with no
    quality flag, the 'excellent' tier and a price category; 6 rows land in
    [soc_locations] and 24 in [competitors], and the run ends with status 0. *)
Theorem generated_table_passes_clean
        (env : environment) (fs : filesystem) (last_id : Z)
        (name_draws : list Generator.name_draw) (row_draws : list Generator.row_draw) :
  List.length name_draws = 24%nat ->
  Forall Generator.valid_name_draw name_draws ->
  Forall2 (fun n d => Generator.valid_row_draw (Generator.contains "Square One" n) d)
          (Generator.all_cafes (map Generator.competitor_name name_draws)) row_draws ->
  let t := Generator.generate last_id name_draws row_draws in
  List.length t = 30%nat /\
  fatal_missing t = false /\
  fatal_duplicates t = false /\
  validation_warnings t = 0%Z /\
  (forall r, In r t ->
     standardize r = r /\
     quality_flag_count (transform_row r) = 0%Z /\
     quality_tier (transform_row r) = Some "excellent" /\
     price_category (transform_row r) <> None) /\
  List.length (soc_locations (transform t)) = 6%nat /\
  List.length (competitors (transform t)) = 24%nat /\
  exit_status (fst (run env no_failure t fs)) = 0%Z.
Proof.
  intros Hlen Hnames Hdraws. cbv zeta. unfold Generator.generate.
  destruct (rows_from_clean (last_id + 1) 0 _ _ Hdraws) as (Hl & Hall & Hsoc).
  set (t := Generator.rows_from (last_id + 1) 0
              (Generator.all_cafes (map Generator.competitor_name name_draws)) row_draws) in *.
  assert (H30 : List.length t = 30%nat).
  { rewrite Hl. unfold Generator.all_cafes. rewrite length_app, length_map, Hlen. reflexivity. }
  assert (Hm : fatal_missing t = false).
  { apply no_missing_required. intros r Hr. apply (Hall r Hr). }
  assert (Hd : fatal_duplicates t = false).
  { apply no_duplicates_NoDup. apply rows_from_NoDup. }
  assert (H6 : List.length (filter is_soc (transform t)) = 6%nat).
  { rewrite Hsoc. unfold Generator.all_cafes.
    rewrite filter_app, (competitor_names_filtered _ Hnames). reflexivity. }
  split; [exact H30|]. split; [exact Hm|]. split; [exact Hd|]. split.
  { rewrite validation_warnings_total.
    assert (Z1 : List.length (filter location_warnings t) = 0%nat)
      by (apply filter_none; intros r Hr; apply (Hall r Hr)).
    assert (Z2 : List.length (filter price_warnings t) = 0%nat)
      by (apply filter_none; intros r Hr; apply (Hall r Hr)).
    assert (Z3 : List.length (filter rating_warnings t) = 0%nat)
      by (apply filter_none; intros r Hr; apply (Hall r Hr)).
    rewrite Z1, Z2, Z3. reflexivity. }
  split.
  { intros r Hr. destruct (Hall r Hr) as (H1 & _ & _ & H4 & H5 & H6'). auto. }
  split; [|split].
  - unfold soc_locations, Pd.drop. rewrite !length_map. exact H6.
  - unfold competitors, Pd.drop. rewrite !length_map.
    pose proof (filter_length is_soc (transform t)) as Hsum.
    unfold transform in Hsum at 3. rewrite length_map, H30, H6 in Hsum. lia.
  - assert (Hnum : forall r, In r t -> avg_beverage_price r <> None /\ review_count r <> None)
      by (intros r Hr; exact (rows_from_numbers _ _ _ _ r Hr)).
    rewrite (run_no_failure env t fs Hm Hd); [reflexivity|].
    clearbody t. destruct t as [|r t']; [discriminate H30|].
    destruct (Hnum r (or_introl eq_refl)) as [Hp Hr].
    apply enrichment_goes_through; exists r; (split; [left; reflexivity | assumption]).
Qed.

Lemma generated_table_passes_clean_witness :
  List.length (Generator.generate 0 (repeat sample_name_draw 24) (repeat sample_row_draw 30))
    = 30%nat /\
  validation_warnings
    (Generator.generate 0 (repeat sample_name_draw 24) (repeat sample_row_draw 30)) = 0%Z /\
  List.length
    (soc_locations
       (transform
          (Generator.generate 0 (repeat sample_name_draw 24) (repeat sample_row_draw 30))))
    = 6%nat.
Proof.
  assert (Hname : Generator.valid_name_draw sample_name_draw).
  { unfold Generator.valid_name_draw. cbn. tauto. }
  assert (Hrow : forall b, Generator.valid_row_draw b sample_row_draw).
  { intros b. unfold Generator.valid_row_draw. destruct b; cbn;
      repeat split; try discriminate; tauto. }
  destruct (generated_table_passes_clean sample_env None 0
              (repeat sample_name_draw 24) (repeat sample_row_draw 30))
    as (H30 & _ & _ & Hw & _ & Hsoc & _).
  - reflexivity.
  - apply Forall_forall. intros d Hd. apply repeat_spec in Hd. subst d. exact Hname.
  - cbn [repeat map Generator.all_cafes Generator.soc_locations app].
    repeat (constructor; [apply Hrow|]). constructor.
  - split; [exact H30|]. split; [exact Hw | exact Hsoc].
Defined.

(** ** Handles and neighborhoods of the generator *)

Lemma string_length_append (a b : string) :
  String.length (a ++ b) = (String.length a + String.length b)%nat.
Proof.
  induction a as [|c a IH]; [reflexivity|]. cbn [append String.length]. rewrite IH. reflexivity.
Qed.

Lemma substring_length (m : nat) (s : string) : (String.length (String.substring 0 m s) <= m)%nat.
Proof.
  revert s. induction m as [|m IH]; intros [|c s]; cbn [String.substring String.length]; try lia.
  specialize (IH s). lia.
Qed.

Lemma substring_chars (P : ascii -> Prop) (m : nat) (s : string) :
  Forall P (list_ascii_of_string s) ->
  Forall P (list_ascii_of_string (String.substring 0 m s)).
Proof.
  revert s. induction m as [|m IH]; intros [|c s]; cbn [String.substring list_ascii_of_string];
    intros H; try constructor; inversion H; subst; auto.
Qed.

Lemma remove_char_chars (P : ascii -> Prop) (c : ascii) (s : string) :
  Forall P (list_ascii_of_string s) ->
  Forall (fun a => P a /\ a <> c) (list_ascii_of_string (Generator.remove_char c s)).
Proof.
  induction s as [|a s IH]; cbn [Generator.remove_char list_ascii_of_string]; intros H.
  - constructor.
  - inversion H; subst. destruct (Ascii.eqb a c) eqn:E; [auto|].
    cbn [list_ascii_of_string]. constructor; [|auto].
    split; [assumption|]. apply Ascii.eqb_neq. exact E.
Qed.

(** X14: the handle the generator derives from a cafe name for the website
    and the Instagram account has at most 20 characters and holds no space,
    no hyphen and no capital letter; so a website has at most 32 characters
    and an Instagram handle at most 21. *)
Theorem handle_shape (cafe_name : string) :
  (String.length (Generator.handle cafe_name) <= 20)%nat /\
  Forall (fun a => Pd.is_upper a = false /\ a <> " "%char /\ a <> "-"%char)
         (list_ascii_of_string (Generator.handle cafe_name)) /\
  (forall w, Generator.website cafe_name true = Some w -> (String.length w <= 32)%nat) /\
  (forall h, Generator.instagram cafe_name true = Some h -> (String.length h <= 21)%nat) /\
  Generator.website cafe_name false = None /\
  Generator.instagram cafe_name false = None.
Proof.
  pose proof (substring_length 20
                (Generator.remove_char "-" (Generator.remove_char " " (Pd.lower cafe_name))))
    as Hlen.
  fold (Generator.handle cafe_name) in Hlen.
  split; [exact Hlen|]. split; [|split; [|split; [|split; reflexivity]]].
  - unfold Generator.handle. apply substring_chars.
    pose proof (remove_char_chars _ "-" _
                  (remove_char_chars _ " " _ (lower_no_upper cafe_name))) as H.
    eapply Forall_impl; [|exact H]. cbn beta. tauto.
  - intros w [= <-]. cbn [append String.length].
    rewrite ?string_length_append. cbn [String.length]. lia.
  - intros h [= <-]. cbn [append String.length].
    rewrite ?string_length_append. cbn [String.length]. lia.
Qed.

(** X15: the generator hands out neighborhoods round-robin by row index: the
    index is always within the list, and in a generated table of 30 rows
    every one of the 15 neighborhoods has exactly two cafes. *)
Theorem neighborhoods_round_robin
        (last_id : Z) (name_draws : list Generator.name_draw)
        (row_draws : list Generator.row_draw) :
  List.length name_draws = 24%nat ->
  List.length row_draws = 30%nat ->
  (forall i : nat,
     nth_error Generator.neighborhoods (i mod List.length Generator.neighborhoods) <> None) /\
  (forall nb : string, In nb Generator.neighborhoods ->
     List.length (in_neighborhood nb (Generator.generate last_id name_draws row_draws))
     = 2%nat).
Proof.
  intros Hn Hr. split.
  - intros i. apply nth_error_Some. apply Nat.mod_upper_bound. discriminate.
  - intros nb Hnb. unfold Generator.generate, Generator.all_cafes.
    do 24 (destruct name_draws as [|? name_draws]; [discriminate Hn|]).
    destruct name_draws; [|discriminate Hn].
    do 30 (destruct row_draws as [|? row_draws]; [discriminate Hr|]).
    destruct row_draws; [|discriminate Hr].
    unfold Generator.neighborhoods in Hnb. cbn [In] in Hnb.
    in_cases Hnb; subst nb; reflexivity.
Qed.

Lemma neighborhoods_round_robin_witness :
  List.length
    (in_neighborhood "Garneau"
       (Generator.generate 0 (repeat sample_name_draw 24) (repeat sample_row_draw 30)))
  = 2%nat.
Proof.
  apply (proj2 (neighborhoods_round_robin 0 (repeat sample_name_draw 24)
                  (repeat sample_row_draw 30) eq_refl eq_refl)).
  cbn. tauto.
Defined.

(** * Properties of the remaining columns and aggregates *)

(** ** Distance from downtown and location zone *)

Lemma distance_value (a b : R) :
  (0 <= sqrt (a ^ 2 + b ^ 2) * 111)%R /\
  ((sqrt (a ^ 2 + b ^ 2) * 111)%R = 0%R <-> a = 0%R /\ b = 0%R).
Proof.
  pose proof (sqrt_pos (a ^ 2 + b ^ 2)) as Hpos.
  assert (Hsum : (0 <= a ^ 2 + b ^ 2)%R) by Lra.nra.
  split; [Lra.lra|]. split.
  - intros H. assert (Hs : sqrt (a ^ 2 + b ^ 2) = 0%R) by Lra.lra.
    apply (sqrt_eq_0 _ Hsum) in Hs. split; Lra.nra.
  - intros [-> ->]. replace (0 ^ 2 + 0 ^ 2)%R with 0%R by Lra.lra.
    rewrite sqrt_0. Lra.lra.
Qed.

Lemma Q2R_small (z : Z) : Q2R (z # 1) = IZR z.
Proof. unfold Q2R. cbn. Lra.lra. Qed.

Lemma zone_of_distance (x : R) :
  (0 <= x)%R ->
  (cut_real zone_bins zone_labels (Some x) = None <-> x = 0%R) /\
  ((0 < x <= 2)%R -> cut_real zone_bins zone_labels (Some x) = Some "core") /\
  ((2 < x <= 5)%R -> cut_real zone_bins zone_labels (Some x) = Some "inner") /\
  ((5 < x <= 10)%R -> cut_real zone_bins zone_labels (Some x) = Some "outer") /\
  ((10 < x)%R -> cut_real zone_bins zone_labels (Some x) = Some "peripheral").
Proof.
  intros Hx. unfold cut_real, zone_bins, zone_labels.
  cbn [searchsorted_left_real edge_lt_real List.length].
  change 0%Q with (0 # 1); change 2%Q with (2 # 1); change 5%Q with (5 # 1);
    change 10%Q with (10 # 1).
  rewrite !Q2R_small.
  destruct (Rlt_dec 0 x) as [H0 | H0];
    [destruct (Rlt_dec 2 x) as [H2 | H2];
     [destruct (Rlt_dec 5 x) as [H5 | H5];
      [destruct (Rlt_dec 10 x) as [H10 | H10]|]|]|];
    cbn; repeat split; intros; try reflexivity; try discriminate; try Lra.lra.
Qed.

(** X16: over the reals, the distance from downtown of a row is null exactly
    when the missing-location flag is raised, is never negative, and is 0
    exactly when the cafe sits on the reference point; the location zone is
    core, inner, outer or peripheral by the bins (0,2], (2,5], (5,10],
    (10,inf), and a cafe on the reference point, at distance 0, has
    coordinates but no zone. *)
Theorem distance_and_zone (r : raw_row) :
  (calculate_distance (row (transform_row r)) = None <->
   flag_missing_location (transform_row r) = true) /\
  (forall x : R, calculate_distance (row (transform_row r)) = Some x ->
     (0 <= x)%R /\
     (x = 0%R <->
      exists lat lng : Q,
        latitude r = Some lat /\ longitude r = Some lng /\
        lat == DOWNTOWN_lat /\ lng == DOWNTOWN_lng) /\
     (location_zone (row (transform_row r)) = None <-> x = 0%R) /\
     ((0 < x <= 2)%R -> location_zone (row (transform_row r)) = Some "core") /\
     ((2 < x <= 5)%R -> location_zone (row (transform_row r)) = Some "inner") /\
     ((5 < x <= 10)%R -> location_zone (row (transform_row r)) = Some "outer") /\
     ((10 < x)%R -> location_zone (row (transform_row r)) = Some "peripheral")).
Proof.
  unfold location_zone, calculate_distance, transform_row, enrich.
  cbn [row flag_missing_location standardize latitude longitude].
  destruct (latitude r) as [lat|], (longitude r) as [lng|]; cbn [Pd.isna orb].
  2, 3, 4: split; [split; reflexivity | discriminate].
  split; [split; discriminate|].
  intros x [= <-].
  destruct (distance_value (Q2R lat - Q2R DOWNTOWN_lat) (Q2R lng - Q2R DOWNTOWN_lng))
    as [Hpos Hzero].
  split; [exact Hpos|]. split; [|apply zone_of_distance; exact Hpos].
  rewrite Hzero. split.
  - intros [Ha Hb]. exists lat, lng. repeat split.
    + apply eqR_Qeq. Lra.lra.
    + apply eqR_Qeq. Lra.lra.
  - intros (? & ? & [= <-] & [= <-] & Ha & Hb).
    apply Qeq_eqR in Ha, Hb. split; Lra.lra.
Qed.

(** ** Popularity percentile *)

Lemma count_if_nonneg (p : Z -> bool) (column : list (option Z)) : (0 <= count_if p column)%Z.
Proof. unfold count_if. lia. Qed.

Lemma count_if_cons (p : Z -> bool) (x : option Z) (column : list (option Z)) :
  count_if p (x :: column) =
  (Z.b2z (match x with Some v => p v | None => false end) + count_if p column)%Z.
Proof.
  unfold count_if. cbn [filter].
  destruct (match x with Some v => p v | None => false end); cbn [List.length Z.b2z]; lia.
Qed.

Lemma count_less_equal (v : Z) (column : list (option Z)) :
  (count_if (fun u => u <? v) column + count_if (fun u => u =? v) column
   <= count_if (fun _ => true) column)%Z.
Proof.
  induction column as [|x column IH]; [reflexivity|].
  rewrite !count_if_cons. destruct x as [u|]; cbn [Z.b2z]; [|lia].
  destruct (u <? v)%Z eqn:E1, (u =? v)%Z eqn:E2; cbn [Z.b2z]; lia.
Qed.

Lemma count_equal_member (v : Z) (column : list (option Z)) :
  In (Some v) column -> (1 <= count_if (fun u => u =? v) column)%Z.
Proof.
  induction column as [|x column IH]; [contradiction|].
  rewrite count_if_cons. pose proof (count_if_nonneg (fun u => u =? v)%Z column) as Hn.
  intros [-> | H].
  - rewrite Z.eqb_refl. cbn [Z.b2z]. lia.
  - specialize (IH H). destruct x as [u|]; [destruct (u =? v)%Z|]; cbn [Z.b2z]; lia.
Qed.

Lemma count_below_next (v w : Z) (column : list (option Z)) :
  (v < w)%Z ->
  (count_if (fun u => u <? v) column + count_if (fun u => u =? v) column
   <= count_if (fun u => u <? w) column)%Z.
Proof.
  intros Hvw. induction column as [|x column IH]; [reflexivity|].
  rewrite !count_if_cons. destruct x as [u|]; cbn [Z.b2z]; [|lia].
  destruct (u <? v)%Z eqn:E1, (u =? v)%Z eqn:E2, (u <? w)%Z eqn:E3; cbn [Z.b2z]; lia.
Qed.

(** The mean rank of the entries equal to [v]. *)
Lemma rank_bounds (v : Z) (column : list (option Z)) :
  In (Some v) column ->
  let rank := inject_Z (count_if (fun u => u <? v)%Z column) +
              (inject_Z (count_if (fun u => u =? v)%Z column) + 1) / 2 in
  0 < rank /\ rank <= inject_Z (count_if (fun _ => true) column) /\
  0 < inject_Z (count_if (fun _ => true) column).
Proof.
  intros Hin. cbv zeta.
  pose proof (count_if_nonneg (fun u => u <? v)%Z column) as Hl.
  pose proof (count_equal_member v column Hin) as He.
  pose proof (count_less_equal v column) as Hle.
  rewrite Zle_Qle in Hl, He, Hle. rewrite inject_Z_plus in Hle.
  change (inject_Z 0) with 0 in Hl. change (inject_Z 1) with 1 in He.
  revert Hl He Hle.
  generalize (inject_Z (count_if (fun u => u <? v)%Z column)),
             (inject_Z (count_if (fun u => u =? v)%Z column)),
             (inject_Z (count_if (fun _ => true) column)).
  intros a e n Hl He Hle. unfold Qdiv. change (/ 2) with (1 # 2). repeat split; lra.
Qed.

(** X17: over the rationals, the popularity percentile of a row of the
    table is null exactly when its review count is null; otherwise it lies
    in (0, 1]; rows with equal counts share a percentile and a row with more
    reviews has a strictly larger one. *)
Theorem popularity_percentile_order (ds : list raw_row) :
  (forall d, popularity_percentile ds d = None <-> review_count d = None) /\
  (forall d q, In d ds -> popularity_percentile ds d = Some q -> 0 < q /\ q <= 1) /\
  (forall d1 d2 n1 n2 q1 q2,
     In d1 ds -> In d2 ds ->
     review_count d1 = Some n1 -> review_count d2 = Some n2 ->
     popularity_percentile ds d1 = Some q1 -> popularity_percentile ds d2 = Some q2 ->
     ((n1 < n2)%Z -> q1 < q2) /\ (n1 = n2 -> q1 = q2)).
Proof.
  unfold popularity_percentile, rank_pct. split; [|split].
  - intros d. destruct (review_count d); split; intros H; try discriminate; reflexivity.
  - intros d q Hd. destruct (review_count d) as [v|] eqn:Hv; [|discriminate].
    intros [= <-].
    assert (Hin : In (Some v) (map review_count ds)).
    { rewrite <- Hv. apply in_map. exact Hd. }
    destruct (rank_bounds v _ Hin) as (Hpos & Hle & Hn).
    split.
    + apply Qlt_shift_div_l; [exact Hn | rewrite Qmult_0_l; exact Hpos].
    + apply Qle_shift_div_r; [exact Hn | rewrite Qmult_1_l; exact Hle].
  - intros d1 d2 n1 n2 q1 q2 H1 H2 E1 E2. rewrite E1, E2. intros [= <-] [= <-].
    split; [|intros ->; reflexivity].
    intros Hlt.
    assert (Hin1 : In (Some n1) (map review_count ds)) by (rewrite <- E1; apply in_map; exact H1).
    assert (Hin2 : In (Some n2) (map review_count ds)) by (rewrite <- E2; apply in_map; exact H2).
    destruct (rank_bounds n2 _ Hin2) as (_ & _ & Hn).
    pose proof (Qinv_lt_0_compat _ Hn) as Hinv.
    unfold Qdiv at 1 3. apply Qmult_lt_compat_r; [exact Hinv|].
    pose proof (count_equal_member n1 _ Hin1) as He1.
    pose proof (count_equal_member n2 _ Hin2) as He2.
    pose proof (count_below_next n1 n2 (map review_count ds) Hlt) as Hstep.
    rewrite Zle_Qle in He1, He2, Hstep. rewrite inject_Z_plus in Hstep.
    change (inject_Z 1) with 1 in He1, He2.
    revert He1 He2 Hstep.
    generalize (inject_Z (count_if (fun u => u <? n1)%Z (map review_count ds))),
               (inject_Z (count_if (fun u => u =? n1)%Z (map review_count ds))),
               (inject_Z (count_if (fun u => u <? n2)%Z (map review_count ds))),
               (inject_Z (count_if (fun u => u =? n2)%Z (map review_count ds))).
    intros a1 e1 a2 e2 He1 He2 Hstep. unfold Qdiv. change (/ 2) with (1 # 2). lra.
Qed.

(** ** Aggregates over the enriched table *)

Lemma tier_one_of_four (r : raw_row) :
  (tier_count "excellent" [transform_row r] + tier_count "good" [transform_row r] +
   tier_count "acceptable" [transform_row r] + tier_count "poor" [transform_row r])%nat
  = 1%nat.
Proof.
  unfold tier_count, transform_row, enrich. cbn [filter quality_tier].
  match goal with
  | |- context [Pd.sum [?a; ?b; ?c; ?d; ?e]] =>
      destruct (tier_of_five_flags a b c d e) as [_ ->]
  end.
  repeat match goal with
  | |- context [(?x =? ?y)%Z] => destruct (x =? y)%Z
  end; reflexivity.
Qed.

Lemma tier_count_cons (label : string) (e : enriched_row) (ds : list enriched_row) :
  tier_count label (e :: ds) = (tier_count label [e] + tier_count label ds)%nat.
Proof.
  unfold tier_count. cbn [filter].
  destruct (match quality_tier e with Some t => String.eqb t label | None => false end);
    reflexivity.
Qed.

(** X18: the quality distribution leaves no row out: the counts of the four
    tiers add up to the number of raw rows, and the 'excellent' count is the
    number of rows without any flag. *)
Theorem tier_counts_cover (ds_raw : list raw_row) :
  (tier_count "excellent" (transform ds_raw) + tier_count "good" (transform ds_raw) +
   tier_count "acceptable" (transform ds_raw) + tier_count "poor" (transform ds_raw))%nat
  = List.length ds_raw /\
  tier_count "excellent" (transform ds_raw) =
  List.length (filter (fun e => (quality_flag_count e =? 0)%Z) (transform ds_raw)).
Proof.
  split.
  - induction ds_raw as [|r ds_raw IH]; [reflexivity|].
    cbn [transform map List.length]. fold (transform ds_raw).
    pose proof (tier_one_of_four r) as H1.
    rewrite (tier_count_cons "excellent"), (tier_count_cons "good"),
      (tier_count_cons "acceptable"), (tier_count_cons "poor"). lia.
  - unfold tier_count, transform. do 2 rewrite filter_map_swap. rewrite !length_map.
    f_equal. apply filter_ext. intros r.
    unfold transform_row, enrich. cbn [quality_tier quality_flag_count].
    match goal with
    | |- context [Pd.sum [?a; ?b; ?c; ?d; ?e]] =>
        destruct (tier_of_five_flags a b c d e) as [_ ->]
    end.
    repeat match goal with
    | |- context [(?x =? ?y)%Z] => destruct (x =? y)%Z
    end; reflexivity.
Qed.

Lemma filter_count_map {A B : Type} (f : B -> bool) (g : A -> B) (l : list A) :
  List.length (filter f (map g l)) = List.length (filter (fun a => f (g a)) l).
Proof. rewrite filter_map_swap. apply length_map. Qed.

Lemma filter_count_or {A : Type} (f g : A -> bool) (l : list A) :
  (forall a, f a && g a = false) ->
  List.length (filter (fun a => f a || g a) l) =
  (List.length (filter f l) + List.length (filter g l))%nat.
Proof.
  intros Hex. induction l as [|a l IH]; [reflexivity|].
  cbn [filter]. specialize (Hex a).
  destruct (f a), (g a); cbn [orb List.length] in *; try discriminate; lia.
Qed.

Lemma filter_count_le {A : Type} (f g : A -> bool) (l : list A) :
  (forall a, In a l -> f a = true -> g a = true) ->
  (List.length (filter f l) <= List.length (filter g l))%nat.
Proof.
  induction l as [|a l IH]; intros H; [reflexivity|].
  cbn [filter].
  assert (IH' : (List.length (filter f l) <= List.length (filter g l))%nat)
    by (apply IH; intros b Hb; apply H; right; exact Hb).
  destruct (f a) eqn:Ef.
  - rewrite (H a (or_introl eq_refl) Ef). cbn [List.length]. lia.
  - destruct (g a); cbn [List.length]; lia.
Qed.

(** X20: the flags of [cafes_complete] reconcile with the warning counts of
    the validation: as many rows carry the suspicious-price flag as there
    are price warnings; the rows with the no-rating flag are the rows
    without a raw rating plus the rating warnings; at least as many rows
    carry the out-of-bounds flag as there are location warnings, and exactly
    as many when no row has one coordinate without the other. *)
Theorem flags_reconcile_with_warnings (ds_raw : list raw_row) :
  flagged flag_suspicious_price (transform ds_raw) =
    List.length (filter price_warnings ds_raw) /\
  flagged flag_no_rating (transform ds_raw) =
    (List.length (filter (fun r => Pd.isna (google_rating r)) ds_raw) +
     List.length (filter rating_warnings ds_raw))%nat /\
  (List.length (filter location_warnings ds_raw) <=
   flagged flag_location_out_of_bounds (transform ds_raw))%nat /\
  ((forall r, In r ds_raw -> Pd.isna (latitude r) = Pd.isna (longitude r)) ->
   flagged flag_location_out_of_bounds (transform ds_raw) =
   List.length (filter location_warnings ds_raw)).
Proof.
  unfold flagged, transform. rewrite !filter_count_map.
  split; [|split; [|split]].
  - f_equal. apply filter_ext. apply flag_suspicious_price_is_warning.
  - rewrite <- filter_count_or.
    + f_equal. apply filter_ext. intros r.
      unfold transform_row, enrich. cbn [flag_no_rating]. rewrite standardized_rating.
      unfold rating_warnings, has_rating.
      destruct (google_rating r) eqn:E; [|destruct (invalid_rating r); reflexivity].
      destruct (invalid_rating r); reflexivity.
    + intros r. unfold rating_warnings, has_rating, Pd.notna.
      destruct (Pd.isna (google_rating r)); reflexivity.
  - apply filter_count_le. intros r _.
    unfold location_warnings, transform_row, enrich. cbn [flag_location_out_of_bounds].
    intros H. apply andb_true_iff in H. apply H.
  - intros H. f_equal. apply filter_ext_in. intros r Hr.
    apply flag_out_of_bounds_is_warning. apply H. exact Hr.
Qed.

(** ** The reports' scaling *)

(** X19: over the rationals, rap-1's 0-100 scaling of a metric never divides
    by zero.  When the column's extremes coincide it gives 50, whatever the
    value scaled.  Otherwise it sends the minimum to 0 and the maximum to
    100, it is strictly increasing in the value scaled, and what it gives
    is at least 0 exactly for a value that is at least the minimum, and at
    most 100 exactly for a value that is at most the maximum.  The value
    the script scales is a group mean rounded to two decimals: nothing
    keeps it between the extremes, and the result leaves the 0-100 range
    when it is not. *)
Theorem normalize_bounds (v min_val max_val : Q) :
  (max_val == min_val -> normalize v min_val max_val = 50) /\
  (min_val < max_val ->
   normalize min_val min_val max_val == 0 /\
   normalize max_val min_val max_val == 100 /\
   (forall w, v < w -> normalize v min_val max_val < normalize w min_val max_val) /\
   (0 <= normalize v min_val max_val <-> min_val <= v) /\
   (normalize v min_val max_val <= 100 <-> v <= max_val)).
Proof.
  split.
  - intros H. unfold normalize. apply Qeq_bool_iff in H. rewrite H. reflexivity.
  - intros Hlt.
    assert (Hpos : 0 < max_val - min_val) by lra.
    assert (Hk : 0 < 100 / (max_val - min_val)).
    { apply Qlt_shift_div_l; [exact Hpos | lra]. }
    assert (E : forall x, normalize x min_val max_val ==
                          (x - min_val) * (100 / (max_val - min_val))).
    { intros x. unfold normalize.
      destruct (Qeq_bool max_val min_val) eqn:Eb; cbn [negb].
      - apply Qeq_bool_iff in Eb. lra.
      - field. lra. }
    assert (Hend : (max_val - min_val) * (100 / (max_val - min_val)) == 100).
    { field. lra. }
    revert Hk E Hend. generalize (100 / (max_val - min_val)). intros k Hk E Hend.
    split; [rewrite E; lra|]. split; [rewrite E; exact Hend|]. split; [|split].
    + intros w Hw. rewrite !E. nra.
    + rewrite E. split; intros H; nra.
    + rewrite E. split; intros H; nra.
Qed.

Lemma normalize_bounds_witness :
  normalize 8 4 4 = 50 /\
  normalize 3 3 (15 # 2) == 0 /\
  normalize (15 # 2) 3 (15 # 2) == 100 /\
  (0 <= normalize 5 3 (15 # 2) /\ normalize 5 3 (15 # 2) <= 100) /\
  ~ normalize 8 3 (15 # 2) <= 100.
Proof.
  split; [exact (proj1 (normalize_bounds 8 4 4) (Qeq_refl 4))|].
  destruct (proj2 (normalize_bounds 5 3 (15 # 2)) eq_refl) as (H0 & H100 & _ & Hlo & Hhi).
  split; [exact H0|]. split; [exact H100|]. split.
  - split; [apply Hlo | apply Hhi]; discriminate.
  - intros H.
    apply (proj2 (proj2 (proj2 (proj2 (proj2 (normalize_bounds 8 3 (15 # 2)) eq_refl))))) in H.
    apply H. reflexivity.
Defined.
